(** * vnpy_rest: the REST request dispatcher ([vnpy_rest/rest_client.py])

  A shallow embedding of [Request], [Response] and [RestClient] together
  with the two module-level helpers [start_event_loop] and
  [run_event_loop], followed by the properties of the request life cycle.

  Conventions of the embedding.
  - Python objects that the client only carries around (dicts, bytes,
    decoded JSON documents, the [extra] payload) are values of [PyObj].
  - [Request] objects are mutable and shared by reference between the
    caller, the signing hook, the coroutine and the callbacks: they live
    in a store indexed by references ([Ref]); a reference always denotes
    an object, as in Python.
  - Code that may raise returns a [Result]; the coroutines run in the
    monad [M] (state of the interpreter, exceptions, and the log of the
    calls made to the network and to the hooks).
  - What the module imports (aiohttp, json, datetime, traceback, the
    formatting of objects) and the bodies of the user's callables are the
    fields of an environment [Env].
  - A coroutine handed to a running loop is run to completion; the
    interleaving of several coroutines at their [await]s is not modelled.
  - An exception carries whether its class derives from [Exception]:
    [except Exception] catches those and lets the others pass
    ([CancelledError], [SystemExit], [KeyboardInterrupt]). *)

From Stdlib Require Import ZArith String List Lia.
From stdpp Require Import base functions list strings pretty.

Open Scope string_scope.
Open Scope list_scope.
Open Scope Z_scope.

(** The line feed that the source writes as a backslash followed by n. *)
Definition LF : string := String (Ascii.ascii_of_nat 10) EmptyString.

(** ** Python values *)

#[warnings="-register-all"]
Inductive PyObj : Type :=
| PyNone
| PyBool (b : bool)
| PyInt (n : Z)
| PyFloat (literal : string)
| PyStr (s : string)
| PyBytes (b : list Byte.byte)
| PyList (items : list PyObj)
| PyDict (items : list (PyObj * PyObj))
| PyOpaque (id : nat).

(** What [sys.exc_info()] returns: the type, the value and the traceback;
    [is_Exception] is [isinstance(value, Exception)]. *)
Record Exn : Type := mkBaseException {
  exc_type : string;
  exc_value : string;
  exc_tb : list string;
  is_Exception : bool
}.

(** An exception of a class derived from [Exception]. *)
Definition mkExn (type value : string) (tb : list string) : Exn :=
  {| exc_type := type; exc_value := value; exc_tb := tb; is_Exception := true |}.

Inductive Result (A : Type) : Type :=
| Ok (a : A)
| Raise (e : Exn).
Arguments Ok {A} a.
Arguments Raise {A} e.

Definition RuntimeError (msg : string) : Exn := mkExn "RuntimeError" msg [].
Definition AttributeError (msg : string) : Exn := mkExn "AttributeError" msg [].
Definition TypeError (msg : string) : Exn := mkExn "TypeError" msg [].

(** [asyncio.CancelledError] and [SystemExit] derive from [BaseException]
    only. *)
Definition CancelledError : Exn :=
  {| exc_type := "asyncio.exceptions.CancelledError"; exc_value := EmptyString;
     exc_tb := []; is_Exception := false |}.
Definition SystemExit (code : string) : Exn :=
  {| exc_type := "SystemExit"; exc_value := code; exc_tb := [];
     is_Exception := false |}.

(** The identity of a Python callable stored in a hook slot, and of a
  [Request] object. *)
Definition Callable : Type := nat.
Definition Ref : Type := nat.

(** ** class Response *)

Module Response.

Record t : Type := __init__ {
  status_code : Z;
  text : string
}.

(** [json(self)]: [loads(self.text)]. *)
Definition json (loads : string -> Result PyObj) (self : t) : Result PyObj :=
  loads (text self).

End Response.

(** ** class Request *)

Module Request.

Record t : Type := mk {
  method : string;
  path : string;
  callback : option Callable;
  params : PyObj;
  data : PyObj;
  headers : PyObj;
  on_failed : option Callable;
  on_error : option Callable;
  extra : PyObj;
  response : option Response.t
}.

(** [__init__], with the argument order of the source; the last four
    arguments default to [None]. *)
Definition __init__ (method path : string) (params data headers : PyObj)
    (callback on_failed on_error : option Callable) (extra : PyObj) : t :=
  {| method := method;
     path := path;
     callback := callback;
     params := params;
     data := data;
     headers := headers;
     on_failed := on_failed;
     on_error := on_error;
     extra := extra;
     response := None |}.

Definition set_response (resp : option Response.t) (self : t) : t :=
  {| method := method self;
     path := path self;
     callback := callback self;
     params := params self;
     data := data self;
     headers := headers self;
     on_failed := on_failed self;
     on_error := on_error self;
     extra := extra self;
     response := resp |}.

(** The value bound to [status_code] in [__str__], as [format] renders
    it: the literal or the decimal numeral of the integer. *)
Definition status_field (self : t) : string :=
  match response self with
  | None => "terminated"
  | Some resp => pretty (Response.status_code resp)
  end.

(** [__str__]; [fmt] is how [str.format] renders a carried object. *)
Definition __str__ (fmt : PyObj -> string) (self : t) : string :=
  "request : " +:+ method self +:+ " " +:+ path self +:+ " because "
    +:+ status_field self +:+ ": " +:+ LF
    +:+ "headers: " +:+ fmt (headers self) +:+ LF
    +:+ "params: " +:+ fmt (params self) +:+ LF
    +:+ "data: " +:+ fmt (data self) +:+ LF
    +:+ "response:"
    +:+ match response self with
        | None => EmptyString
        | Some resp => Response.text resp
        end
    +:+ LF.

End Request.

(** ** asyncio and threading, as far as the client uses them *)

Module Asyncio.

Definition Loop : Type := nat.

(** [Thread(target=run_event_loop, args=(loop,))] and its [daemon] flag. *)
Record Thread : Type := mkThread {
  target : Loop;
  daemon : bool
}.

(** The coroutine objects of the client: [self._process_request(request)]
    and [self._get_response(request)]. *)
Inductive Coroutine : Type :=
| ProcessRequest (request : Ref)
| GetResponse (request : Ref).

(** [loops]: the event loops created so far, each with what its
    [is_running()] answers; a loop is its index. [threads]: the threads
    started so far. [running_loop]: the loop running in the thread that
    calls the client, if any. [scheduled]: the coroutines handed to
    [run_coroutine_threadsafe] that no worker has run yet. [stopping]:
    the loops whose [stop()] was called and which have not left
    [run_forever] since. *)
Record t : Type := mk {
  loops : list bool;
  threads : list Thread;
  running_loop : option Loop;
  scheduled : list (Loop * Coroutine);
  stopping : list Loop
}.

Definition is_running (a : t) (loop : Loop) : bool :=
  match loops a !! loop with
  | Some b => b
  | None => false
  end.

(** [get_running_loop()]: raises [RuntimeError] when the calling thread
    runs no loop. *)
Definition get_running_loop (a : t) : Result Loop :=
  match running_loop a with
  | Some loop => Ok loop
  | None => Raise (RuntimeError "no running event loop")
  end.

(** [new_event_loop()]: a loop that did not exist before, not running. *)
Definition new_event_loop (a : t) : Loop * t :=
  (length (loops a),
   {| loops := loops a ++ [false];
      threads := threads a;
      running_loop := running_loop a;
      scheduled := scheduled a;
      stopping := stopping a |}).

(** [thread.start()]. The thread's target runs later, see
    [run_event_loop]. *)
Definition thread_start (th : Thread) (a : t) : t :=
  {| loops := loops a;
     threads := threads a ++ [th];
     running_loop := running_loop a;
     scheduled := scheduled a;
     stopping := stopping a |}.

Definition set_running (loop : Loop) (b : bool) (a : t) : t :=
  {| loops := <[loop := b]> (loops a);
     threads := threads a;
     running_loop := running_loop a;
     scheduled := scheduled a;
     stopping := stopping a |}.

(** [loop.run_forever()], entered: the loop is running. *)
Definition run_forever (loop : Loop) (a : t) : t := set_running loop true a.

Definition stop_requested (a : t) (loop : Loop) : bool :=
  existsb (Nat.eqb loop) (stopping a).

(** [loop.stop()]: the loop is asked to stop. It goes on running, and
    [is_running()] goes on answering [True], until it leaves
    [run_forever], see [exit_run_forever]. *)
Definition stop (loop : Loop) (a : t) : t :=
  if stop_requested a loop then a
  else
    {| loops := loops a;
       threads := threads a;
       running_loop := running_loop a;
       scheduled := scheduled a;
       stopping := loop :: stopping a |}.

(** The loop finds, at the end of an iteration, that [stop()] was called:
    [run_forever] returns, the loop is no longer running and the request
    to stop is cleared. *)
Definition exit_run_forever (loop : Loop) (a : t) : t :=
  if stop_requested a loop then
    {| loops := <[loop := false]> (loops a);
       threads := threads a;
       running_loop := running_loop a;
       scheduled := scheduled a;
       stopping := List.filter (fun l => negb (Nat.eqb loop l)) (stopping a) |}
  else a.

Definition set_scheduled (s : list (Loop * Coroutine)) (a : t) : t :=
  {| loops := loops a;
     threads := threads a;
     running_loop := running_loop a;
     scheduled := s;
     stopping := stopping a |}.

(** The first coroutine scheduled on [loop], and the schedule without it. *)
Fixpoint take_scheduled (loop : Loop) (s : list (Loop * Coroutine))
    : option (Coroutine * list (Loop * Coroutine)) :=
  match s with
  | [] => None
  | (l, coro) :: rest =>
      if Nat.eqb l loop then Some (coro, rest)
      else match take_scheduled loop rest with
           | Some (c, rest') => Some (c, (l, coro) :: rest')
           | None => None
           end
  end.

End Asyncio.

(** [start_event_loop(loop)]: a background daemon thread for a loop that is
    not running. *)
Definition start_event_loop (loop : Asyncio.Loop) (a : Asyncio.t) : Asyncio.t :=
  if negb (Asyncio.is_running a loop) then
    Asyncio.thread_start {| Asyncio.target := loop; Asyncio.daemon := true |} a
  else a.

(** [run_event_loop(loop)], the body of the background thread:
    [set_event_loop(loop)] concerns that thread alone, [run_forever] makes
    the loop running. *)
Definition run_event_loop (loop : Asyncio.Loop) (a : Asyncio.t) : Asyncio.t :=
  Asyncio.run_forever loop a.

(** ** aiohttp, as far as the client uses it *)

Module ClientSession.

(** [ClientSession(trust_env=True)]. *)
Record t : Type := mk { trust_env : bool }.

(** The arguments of one [session.request(...)]. *)
Record Call : Type := mkCall {
  method : string;
  url : string;
  headers : PyObj;
  params : PyObj;
  data : PyObj;
  proxy : option string
}.

End ClientSession.

Module ClientResponse.

(** [cr.status] and what [await cr.text()] gives. *)
Record t : Type := mk {
  status : Z;
  text : Result string
}.

End ClientResponse.

(** ** class RestClient *)

Module RestClient.

(** The fields of a client instance. *)
Record t : Type := mk {
  url_base : string;
  proxy : option string;
  session : option ClientSession.t;
  loop : option Asyncio.Loop
}.

Definition __init__ : t :=
  {| url_base := EmptyString; proxy := None; session := None; loop := None |}.

(** [init(self, url_base, proxy_host, proxy_port)]: the proxy is assigned
    only under the guard, otherwise the field keeps its value. *)
Definition init (base proxy_host : string) (proxy_port : Z) (self : t) : t :=
  {| url_base := base;
     proxy :=
       if negb (String.eqb proxy_host EmptyString) && negb (Z.eqb proxy_port 0)
       then Some ("http://" +:+ proxy_host +:+ ":" +:+ pretty proxy_port)
       else proxy self;
     session := session self;
     loop := loop self |}.

(** [_make_full_url(self, path)]. *)
Definition _make_full_url (self : t) (path : string) : string :=
  url_base self +:+ path.

Definition set_session (s : option ClientSession.t) (self : t) : t :=
  {| url_base := url_base self; proxy := proxy self;
     session := s; loop := loop self |}.

Definition set_loop (l : option Asyncio.Loop) (self : t) : t :=
  {| url_base := url_base self; proxy := proxy self;
     session := session self; loop := l |}.

(** *** The state the client runs in *)

(** [heap]: the [Request] objects; [next_ref]: the reference of the next
    object constructed; [client]: the fields of [self]; [asyncio]: loops
    and threads; [stdout], [stderr]: the lines printed so far. *)
Record World : Type := mkWorld {
  heap : Ref -> Request.t;
  next_ref : Ref;
  client : t;
  asyncio : Asyncio.t;
  stdout : list string;
  stderr : list string
}.

Definition set_heap (h : Ref -> Request.t) (w : World) : World :=
  {| heap := h; next_ref := next_ref w; client := client w;
     asyncio := asyncio w; stdout := stdout w; stderr := stderr w |}.

Definition set_client (c : t) (w : World) : World :=
  {| heap := heap w; next_ref := next_ref w; client := c;
     asyncio := asyncio w; stdout := stdout w; stderr := stderr w |}.

Definition set_asyncio (a : Asyncio.t) (w : World) : World :=
  {| heap := heap w; next_ref := next_ref w; client := client w;
     asyncio := a; stdout := stdout w; stderr := stderr w |}.

(** [print(line)]. *)
Definition print (line : string) (w : World) : World :=
  {| heap := heap w; next_ref := next_ref w; client := client w;
     asyncio := asyncio w; stdout := stdout w ++ [line]; stderr := stderr w |}.

Definition eprint (line : string) (w : World) : World :=
  {| heap := heap w; next_ref := next_ref w; client := client w;
     asyncio := asyncio w; stdout := stdout w; stderr := stderr w ++ [line] |}.

(** [Request(...)]: a new object in the store. *)
Definition new_request (r : Request.t) (w : World) : Ref * World :=
  (next_ref w,
   {| heap := <[next_ref w := r]> (heap w); next_ref := S (next_ref w);
      client := client w; asyncio := asyncio w;
      stdout := stdout w; stderr := stderr w |}).

(** *** Calls that are observed *)

(** A call of one of the completion hooks, with its arguments. *)
Inductive Hook : Type :=
| Callback (f : Callable) (body : PyObj) (request : Ref)
| RequestOnFailed (f : Callable) (status_code : Z) (request : Ref)
| ClientOnFailed (status_code : Z) (request : Ref)
| RequestOnError (f : Callable) (e : Exn) (request : Ref)
| ClientOnError (e : Exn) (request : Ref).

Inductive Event : Type :=
| NetworkCall (call : ClientSession.Call)
| HookCall (h : Hook).

(** User code and overridable methods: a state transformer that may raise. *)
Definition Code (A : Type) : Type := World -> Result A * World.

(** What the module imports, and the callables found in the hook slots.
    The errors of [json.loads] and of the network call are of classes
    derived from [Exception]. [result_exception] is what [fut.result()]
    raises in the waiting thread when the coroutine ended with the given
    exception: asyncio hands it over, and replaces a cancellation by the
    [CancelledError] of [concurrent.futures]. *)
Record Env : Type := mkEnv {
  py_format : PyObj -> string;
  loads : string -> Result PyObj;
  session_request : ClientSession.Call -> Result ClientResponse.t;
  now_isoformat : string;
  format_exception : Exn -> string;
  call_callback : Callable -> PyObj -> Ref -> Code unit;
  call_on_failed : Callable -> Z -> Ref -> Code unit;
  call_on_error : Callable -> Exn -> Ref -> Code unit;
  result_exception : Exn -> Exn;
  loads_raises_Exception :
    forall s e, loads s = Raise e -> is_Exception e = true;
  session_request_raises_Exception :
    forall call e, session_request call = Raise e -> is_Exception e = true
}.

(** The methods a subclass may override, as resolved on [self]. *)
Module Self.

Record vtable : Type := mk {
  sign : Ref -> Code Ref;
  on_failed : Z -> Ref -> Code unit;
  on_error : Exn -> option Ref -> Code unit;
  exception_detail : Exn -> option Ref -> Code string
}.

End Self.

(** *** The monad of the coroutines *)

Definition M (A : Type) : Type := World -> Result A * list Event * World.

Definition ret {A : Type} (a : A) : M A := fun w => (Ok a, [], w).

Definition raise {A : Type} (e : Exn) : M A := fun w => (Raise e, [], w).

Definition bind {A B : Type} (m : M A) (k : A -> M B) : M B :=
  fun w =>
    match m w with
    | (Ok a, tr1, w1) =>
        match k a w1 with
        | (r, tr2, w2) => (r, tr1 ++ tr2, w2)
        end
    | (Raise e, tr1, w1) => (Raise e, tr1, w1)
    end.

(** [try: m except Exception: handler]. An exception of a class that
    does not derive from [Exception] is not caught. *)
Definition try_except {A : Type} (m : M A) (handler : Exn -> M A) : M A :=
  fun w =>
    match m w with
    | (Ok a, tr1, w1) => (Ok a, tr1, w1)
    | (Raise e, tr1, w1) =>
        if is_Exception e then
          match handler e w1 with
          | (r, tr2, w2) => (r, tr1 ++ tr2, w2)
          end
        else (Raise e, tr1, w1)
    end.

Definition gets {A : Type} (f : World -> A) : M A := fun w => (Ok (f w), [], w).

Definition modify (f : World -> World) : M unit := fun w => (Ok tt, [], f w).

Definition emit (ev : Event) : M unit := fun w => (Ok tt, [ev], w).

Definition lift {A : Type} (c : Code A) : M A :=
  fun w => match c w with (r, w1) => (r, [], w1) end.

Definition of_result {A : Type} (r : Result A) : M A := fun w => (r, [], w).

Declare Scope m_scope.
Delimit Scope m_scope with M.
Notation "x <- m ;; k" := (bind m (fun x => k))
  (at level 100, m at next level, right associativity) : m_scope.
Notation "m ;; k" := (bind m (fun _ => k))
  (at level 100, right associativity) : m_scope.

(** [start(self, session_number)]: the loop running in the calling thread
    if there is one, else a new loop; then [start_event_loop]. The only
    exception [get_running_loop] raises is the [RuntimeError] that the
    [except] clause names. *)
Definition start (session_number : Z) (w : World) : World :=
  let '(l, a) :=
    match Asyncio.get_running_loop (asyncio w) with
    | Ok l => (l, asyncio w)
    | Raise _ => Asyncio.new_event_loop (asyncio w)
    end in
  set_asyncio (start_event_loop l a) (set_client (set_loop (Some l) (client w)) w).

(** [stop(self)]. *)
Definition stop (w : World) : World :=
  match loop (client w) with
  | Some l =>
      if Asyncio.is_running (asyncio w) l
      then set_asyncio (Asyncio.stop l (asyncio w)) w
      else w
  | None => w
  end.

(** [join(self)]: [pass]. *)
Definition join (w : World) : World := w.

(** How a synchronous call stands for its caller: it has returned a
    value, it has raised, or the caller is waiting in [fut.result()] with
    the coroutine queued, until a worker has run it. *)
Inductive Outcome (A : Type) : Type :=
| Returned (a : A)
| Raised (e : Exn)
| Blocked.
Arguments Returned {A} a.
Arguments Raised {A} e.
Arguments Blocked {A}.

Section Methods.

Variable E : Env.

(** [sign(self, request)]: [return request]. *)
Definition sign (request : Ref) : Code Ref :=
  fun w => (Ok request, w).

(** [on_failed(self, status_code, request)]: two [print]s. *)
Definition on_failed (status_code : Z) (request : Ref) : Code unit :=
  fun w =>
    let w1 := print ("RestClient on failed" +:+ "----------") w in
    (Ok tt, print (Request.__str__ (py_format E) (heap w1 request)) w1).

(** [exception_detail(self, exception_type, exception_value, tb, request)];
    a class is rendered by [format] as [<class 'name'>], [None] as its
    name. *)
Definition exception_detail (e : Exn) (request : option Ref) : Code string :=
  fun w =>
    let text :=
      "[" +:+ now_isoformat E +:+ "]: Unhandled RestClient Error:"
          +:+ "<class '" +:+ exc_type e +:+ "'>" +:+ LF in
    let text :=
      text +:+ "request:"
           +:+ match request with
               | Some r => Request.__str__ (py_format E) (heap w r)
               | None => "None"
               end
           +:+ LF in
    let text := text +:+ "Exception trace: " +:+ LF in
    let text := text +:+ format_exception E e in
    (Ok text, w).

(** [on_error(self, exception_type, exception_value, tb, request)]: the
    [try] around the two [print]s, with [traceback.print_exc()] as the
    handler of its [except Exception]. [detail] is
    [self.exception_detail]. *)
Definition on_error (detail : Exn -> option Ref -> Code string)
    (e : Exn) (request : option Ref) : Code unit :=
  fun w =>
    let w1 := print ("RestClient on error" +:+ "----------") w in
    match detail e request w1 with
    | (Ok text, w2) => (Ok tt, print text w2)
    | (Raise e', w2) =>
        if is_Exception e' then (Ok tt, eprint (format_exception E e') w2)
        else (Raise e', w2)
    end.

(** The class as the source defines it, nothing overridden. *)
Definition base : Self.vtable :=
  {| Self.sign := sign;
     Self.on_failed := on_failed;
     Self.on_error := on_error exception_detail;
     Self.exception_detail := exception_detail |}.

Variable self : Self.vtable.

(** [await self.session.request(...)], observed. *)
Definition await_session_request (call : ClientSession.Call) : M ClientResponse.t :=
  (emit (NetworkCall call) ;;
   of_result (session_request E call))%M.

(** The code a hook call runs. *)
Definition run_hook (h : Hook) : Code unit :=
  match h with
  | Callback f body request => call_callback E f body request
  | RequestOnFailed f status_code request => call_on_failed E f status_code request
  | ClientOnFailed status_code request => Self.on_failed self status_code request
  | RequestOnError f e request => call_on_error E f e request
  | ClientOnError e request => Self.on_error self e (Some request)
  end.

(** A hook call, observed. *)
Definition invoke (h : Hook) : M unit :=
  (emit (HookCall h) ;;
   lift (run_hook h))%M.

Definition ensure_session (w : World) : World :=
  match session (client w) with
  | Some _ => w
  | None =>
      set_client
        (set_session (Some {| ClientSession.trust_env := true |}) (client w)) w
  end.

Definition attach_response (request : Ref) (resp : Response.t) (w : World) : World :=
  set_heap (<[request := Request.set_response (Some resp) (heap w request)]> (heap w)) w.

(** [_get_response(self, request)]. *)
Definition _get_response (request : Ref) : M Response.t :=
  (request <- lift (Self.sign self request) ;;
   path <- gets (fun w => Request.path (heap w request)) ;;
   url <- gets (fun w => _make_full_url (client w) path) ;;
   modify ensure_session ;;
   call <- gets (fun w =>
     {| ClientSession.method := Request.method (heap w request);
        ClientSession.url := url;
        ClientSession.headers := Request.headers (heap w request);
        ClientSession.params := Request.params (heap w request);
        ClientSession.data := Request.data (heap w request);
        ClientSession.proxy := proxy (client w) |}) ;;
   cr <- await_session_request call ;;
   text <- of_result (ClientResponse.text cr) ;;
   let status_code := ClientResponse.status cr in
   let resp := Response.__init__ status_code text in
   modify (attach_response request resp) ;;
   ret resp)%M.

(** [_process_request(self, request)]. In the call of the success callback
    Python evaluates [request.callback] first, then [response.json()], and
    then calls: calling [None] raises [TypeError]. *)
Definition _process_request (request : Ref) : M unit :=
  try_except
    (response <- _get_response request ;;
     let status_code := Response.status_code response in
     if Z.eqb (status_code / 100) 2 then
       callback <- gets (fun w => Request.callback (heap w request)) ;;
       body <- of_result (Response.json (loads E) response) ;;
       match callback with
       | Some f => invoke (Callback f body request)
       | None => raise (TypeError "'NoneType' object is not callable")
       end
     else
       on_failed <- gets (fun w => Request.on_failed (heap w request)) ;;
       match on_failed with
       | Some f => invoke (RequestOnFailed f status_code request)
       | None => invoke (ClientOnFailed status_code request)
       end)%M
    (fun e =>
       on_error <- gets (fun w => Request.on_error (heap w request)) ;;
       match on_error with
       | Some f => invoke (RequestOnError f e request)
       | None => invoke (ClientOnError e request)
       end)%M.

Definition run_coroutine (coro : Asyncio.Coroutine) : M unit :=
  match coro with
  | Asyncio.ProcessRequest request => _process_request request
  | Asyncio.GetResponse request => (_ <- _get_response request ;; ret tt)%M
  end.

(** [run_coroutine_threadsafe(coro, self.loop)]: without a loop the call
    fails on [None]; with one the coroutine is queued on it. *)
Definition run_coroutine_threadsafe (coro : Asyncio.Coroutine)
    (loop : option Asyncio.Loop) : Code unit :=
  fun w =>
    match loop with
    | None =>
        (Raise (AttributeError "'NoneType' object has no attribute 'call_soon_threadsafe'"), w)
    | Some l =>
        (Ok tt,
         set_asyncio
           (Asyncio.set_scheduled (Asyncio.scheduled (asyncio w) ++ [(l, coro)]) (asyncio w))
           w)
    end.

(** A caller that waits on a future is served when the loop it queued on
    is running, in another thread than the caller's own. *)
Definition serves (a : Asyncio.t) (loop : option Asyncio.Loop) : bool :=
  match loop with
  | Some l =>
      Asyncio.is_running a l &&
      match Asyncio.running_loop a with
      | Some l' => negb (Nat.eqb l' l)
      | None => true
      end
  | None => false
  end.

(** [add_request(...)]: the coroutine is queued, the new [Request] is
    returned at once. *)
Definition add_request (method path : string) (callback : option Callable)
    (params data headers : PyObj) (on_failed on_error : option Callable)
    (extra : PyObj) : Code Ref :=
  fun w =>
    let '(request, w1) :=
      new_request
        (Request.__init__ method path params data headers
           callback on_failed on_error extra) w in
    match run_coroutine_threadsafe (Asyncio.ProcessRequest request) (loop (client w1)) w1 with
    | (Ok _, w2) => (Ok request, w2)
    | (Raise e, w2) => (Raise e, w2)
    end.

(** One turn of the worker of [l]: the first coroutine queued on [l] is
    taken and run; its result stays in its future. *)
Definition worker_step (l : Asyncio.Loop) : M unit :=
  fun w =>
    if Asyncio.is_running (asyncio w) l then
      match Asyncio.take_scheduled l (Asyncio.scheduled (asyncio w)) with
      | Some (coro, rest) =>
          run_coroutine coro (set_asyncio (Asyncio.set_scheduled rest (asyncio w)) w)
      | None => (Ok tt, [], w)
      end
    else (Ok tt, [], w).

(** [request(...)]: the coroutine is queued and the caller waits in
    [fut.result()]. When the loop serves the caller, the worker runs this
    coroutine and [result()] hands over its value, or raises what the
    bridge makes of its exception. Otherwise the caller is waiting, with
    the coroutine queued: the call ends when the loop has come to run and
    its worker has taken the coroutine, see [worker_step]. Coroutines
    queued before this one are requests in flight, suspended in their
    network call; the order in which requests in flight complete is not
    fixed, and the caller's own is taken to complete first. *)
Definition request (method path : string) (params data headers : PyObj)
    : World -> Outcome Response.t * list Event * World :=
  fun w =>
    let '(request, w1) :=
      new_request
        (Request.__init__ method path params data headers None None None PyNone) w in
    match run_coroutine_threadsafe (Asyncio.GetResponse request) (loop (client w1)) w1 with
    | (Raise e, w2) => (Raised e, [], w2)
    | (Ok _, w2) =>
        if serves (asyncio w1) (loop (client w1)) then
          match _get_response request w1 with
          | (Ok resp, tr, w3) => (Returned resp, tr, w3)
          | (Raise e, tr, w3) => (Raised (result_exception E e), tr, w3)
          end
        else (Blocked, [], w2)
    end.

End Methods.

End RestClient.

(** ** Reading a log of calls *)

Fixpoint hook_calls (tr : list RestClient.Event) : list RestClient.Hook :=
  match tr with
  | [] => []
  | RestClient.HookCall h :: tr' => h :: hook_calls tr'
  | RestClient.NetworkCall _ :: tr' => hook_calls tr'
  end.

Fixpoint network_calls (tr : list RestClient.Event) : list ClientSession.Call :=
  match tr with
  | [] => []
  | RestClient.NetworkCall c :: tr' => c :: network_calls tr'
  | RestClient.HookCall _ :: tr' => network_calls tr'
  end.

(** The three outcome paths. *)
Definition is_success (h : RestClient.Hook) : bool :=
  match h with
  | RestClient.Callback _ _ _ => true
  | _ => false
  end.

Definition is_failure (h : RestClient.Hook) : bool :=
  match h with
  | RestClient.RequestOnFailed _ _ _ | RestClient.ClientOnFailed _ _ => true
  | _ => false
  end.

Definition is_error (h : RestClient.Hook) : bool :=
  match h with
  | RestClient.RequestOnError _ _ _ | RestClient.ClientOnError _ _ => true
  | _ => false
  end.

Definition count (p : RestClient.Hook -> bool) (tr : list RestClient.Event) : nat :=
  length (List.filter p (hook_calls tr)).

(** The failure path chosen for a request: its own hook before the
    client's. *)
Definition failure_path (r : Request.t) (status_code : Z) (request : Ref)
    : RestClient.Hook :=
  match Request.on_failed r with
  | Some f => RestClient.RequestOnFailed f status_code request
  | None => RestClient.ClientOnFailed status_code request
  end.

(** The error path chosen for a request. *)
Definition error_path (r : Request.t) (e : Exn) (request : Ref)
    : RestClient.Hook :=
  match Request.on_error r with
  | Some f => RestClient.RequestOnError f e request
  | None => RestClient.ClientOnError e request
  end.

(** The arguments [_get_response] passes to [session.request] for the
    request object [r] of a client with fields [c]. *)
Definition call_of (c : RestClient.t) (r : Request.t) : ClientSession.Call :=
  {| ClientSession.method := Request.method r;
     ClientSession.url := RestClient._make_full_url c (Request.path r);
     ClientSession.headers := Request.headers r;
     ClientSession.params := Request.params r;
     ClientSession.data := Request.data r;
     ClientSession.proxy := RestClient.proxy c |}.

(** What [_get_response] does once [sign] has returned [request] in the
    state [w]: one network call, and the response attached on success. *)
Definition dispatch (E : RestClient.Env) (request : Ref) (w : RestClient.World)
    : Result Response.t * list RestClient.Event * RestClient.World :=
  let w1 := RestClient.ensure_session w in
  let call := call_of (RestClient.client w) (RestClient.heap w request) in
  match RestClient.session_request E call with
  | Raise e => (Raise e, [RestClient.NetworkCall call], w1)
  | Ok cr =>
      match ClientResponse.text cr with
      | Raise e => (Raise e, [RestClient.NetworkCall call], w1)
      | Ok text =>
          let resp := Response.__init__ (ClientResponse.status cr) text in
          (Ok resp, [RestClient.NetworkCall call],
           RestClient.attach_response request resp w1)
      end
  end.

(** The [except] branch of [_process_request] entered with [e], after the
    calls [tr], in the state [w]: the error path of the request runs. *)
Definition handled (E : RestClient.Env) (self : RestClient.Self.vtable)
    (request : Ref) (e : Exn) (tr : list RestClient.Event) (w : RestClient.World)
    : Result unit * list RestClient.Event * RestClient.World :=
  let h := error_path (RestClient.heap w request) e request in
  match RestClient.run_hook E self h w with
  | (r, w') => (r, tr ++ [RestClient.HookCall h], w')
  end.

(** A hook called inside the [try] of [_process_request]: what it raises
    enters the [except] branch. *)
Definition guarded (E : RestClient.Env) (self : RestClient.Self.vtable)
    (request : Ref) (h : RestClient.Hook) (tr : list RestClient.Event)
    (w : RestClient.World)
    : Result unit * list RestClient.Event * RestClient.World :=
  match RestClient.run_hook E self h w with
  | (Ok u, w') => (Ok u, tr ++ [RestClient.HookCall h], w')
  | (Raise e, w') =>
      if is_Exception e
      then handled E self request e (tr ++ [RestClient.HookCall h]) w'
      else (Raise e, tr ++ [RestClient.HookCall h], w')
  end.

(** What becomes of an exception raised inside the [try] before any hook
    is called: the [except] branch when its class derives from
    [Exception], and otherwise the end of the coroutine. *)
Definition raised_in_try (E : RestClient.Env) (self : RestClient.Self.vtable)
    (request : Ref) (e : Exn) (tr : list RestClient.Event) (w : RestClient.World)
    : Result unit * list RestClient.Event * RestClient.World :=
  if is_Exception e then handled E self request e tr w else (Raise e, tr, w).



(** ** A concrete environment: one server, three callables *)

Module Scenario.

Definition fmt (o : PyObj) : string :=
  match o with
  | PyNone => "None"
  | PyInt n => pretty n
  | PyStr s => s
  | _ => "{...}"
  end.

Definition ok_body : string := "[1, 2]".

(** [loads] on the bodies the server below sends. *)
Definition loads (s : string) : Result PyObj :=
  if String.eqb s ok_body then Ok (PyList [PyInt 1; PyInt 2])
  else Raise (mkExn "JSONDecodeError" "Expecting value" []).

(** The server: [/ping] answers 200 with a JSON body, [/page] answers 200
    with a body that is no JSON, [/missing] answers 404, and any other
    address refuses the connection. *)
Definition server (c : ClientSession.Call) : Result ClientResponse.t :=
  if String.eqb (ClientSession.url c) "https://api.example.com/ping" then
    Ok {| ClientResponse.status := 200; ClientResponse.text := Ok ok_body |}
  else if String.eqb (ClientSession.url c) "https://api.example.com/page" then
    Ok {| ClientResponse.status := 200; ClientResponse.text := Ok "<html>" |}
  else if String.eqb (ClientSession.url c) "https://api.example.com/missing" then
    Ok {| ClientResponse.status := 404; ClientResponse.text := Ok "not found" |}
  else Raise (mkExn "ClientConnectorError" "Cannot connect to host" []).

Definition quiet : Callable := 0%nat.
Definition faulty : Callable := 1%nat.

Definition cancelled : Callable := 2%nat.

(** The callable [quiet] prints a line and returns, [faulty] raises
    [ValueError], and every other callable raises [CancelledError]. *)
Definition call (f : Callable) : RestClient.Code unit :=
  fun w =>
    match f with
    | O => (Ok tt, RestClient.print "called" w)
    | S O => (Raise (mkExn "ValueError" "boom" []), w)
    | S (S _) => (Raise CancelledError, w)
    end.

(** What [fut.result()] raises for the exception of the coroutine. *)
Definition result_exception (e : Exn) : Exn :=
  if String.eqb (exc_type e) "asyncio.exceptions.CancelledError"
  then mkExn "concurrent.futures._base.CancelledError" EmptyString []
  else e.

Lemma loads_raises_Exception (s : string) (e : Exn) :
  loads s = Raise e -> is_Exception e = true.
Proof.
  unfold loads. destruct (String.eqb s ok_body); [discriminate |].
  intros H. injection H as <-. reflexivity.
Qed.

Lemma server_raises_Exception (c : ClientSession.Call) (e : Exn) :
  server c = Raise e -> is_Exception e = true.
Proof.
  unfold server.
  destruct (String.eqb (ClientSession.url c) "https://api.example.com/ping");
    [discriminate |].
  destruct (String.eqb (ClientSession.url c) "https://api.example.com/page");
    [discriminate |].
  destruct (String.eqb (ClientSession.url c) "https://api.example.com/missing");
    [discriminate |].
  intros H. injection H as <-. reflexivity.
Qed.

Definition env : RestClient.Env :=
  {| RestClient.py_format := fmt;
     RestClient.loads := loads;
     RestClient.session_request := server;
     RestClient.now_isoformat := "2024-01-01T00:00:00";
     RestClient.format_exception := fun e => exc_type e +:+ ": " +:+ exc_value e;
     RestClient.call_callback := fun f _ _ => call f;
     RestClient.call_on_failed := fun f _ _ => call f;
     RestClient.call_on_error := fun f _ _ => call f;
     RestClient.result_exception := result_exception;
     RestClient.loads_raises_Exception := loads_raises_Exception;
     RestClient.session_request_raises_Exception := server_raises_Exception |}.

(** A subclass whose [sign] raises. *)
Definition strict : RestClient.Self.vtable :=
  {| RestClient.Self.sign :=
       fun _ w => (Raise (mkExn "KeyError" "secret" []), w);
     RestClient.Self.on_failed := RestClient.on_failed env;
     RestClient.Self.on_error :=
       RestClient.on_error env (RestClient.exception_detail env);
     RestClient.Self.exception_detail := RestClient.exception_detail env |}.


Definition blank : Request.t :=
  Request.__init__ EmptyString EmptyString PyNone PyNone PyNone None None None PyNone.

(** A process in which nothing has happened yet: no request, no loop, no
    thread, and the calling thread runs no loop. *)
Definition fresh : RestClient.World :=
  {| RestClient.heap := fun _ => blank;
     RestClient.next_ref := 0%nat;
     RestClient.client := RestClient.__init__;
     RestClient.asyncio :=
       {| Asyncio.loops := []; Asyncio.threads := [];
          Asyncio.running_loop := None; Asyncio.scheduled := [];
          Asyncio.stopping := [] |};
     RestClient.stdout := [];
     RestClient.stderr := [] |}.

(** After [init("https://api.example.com")]. *)
Definition configured : RestClient.World :=
  RestClient.set_client
    (RestClient.init "https://api.example.com" EmptyString 0
       (RestClient.client fresh))
    fresh.

(** After [start()], once the background thread runs its loop. *)
Definition started : RestClient.World :=
  let w := RestClient.start 3 configured in
  RestClient.set_asyncio (run_event_loop 0%nat (RestClient.asyncio w)) w.

(** A process whose calling thread itself runs loop 0. *)
Definition on_loop : RestClient.World :=
  RestClient.set_asyncio
    {| Asyncio.loops := [true]; Asyncio.threads := [];
       Asyncio.running_loop := Some 0%nat; Asyncio.scheduled := [];
       Asyncio.stopping := [] |}
    configured.

(** [add_request("GET", path, callback, on_failed=..., on_error=...)] on
    the started client; the new request is object 0. *)
Definition submitted (path : string) (callback on_failed on_error : option Callable)
    : RestClient.World :=
  snd (RestClient.add_request "GET" path callback PyNone PyNone PyNone
         on_failed on_error PyNone started).

End Scenario.

(** ** A subclass whose [sign] returns a new request *)

Module Resigning.

(** [sign] builds a copy of the request and returns the copy. *)
Definition sign (request : Ref) : RestClient.Code Ref :=
  fun w =>
    match RestClient.new_request (RestClient.heap w request) w with
    | (copy, w') => (Ok copy, w')
    end.

Definition class : RestClient.Self.vtable :=
  {| RestClient.Self.sign := sign;
     RestClient.Self.on_failed := RestClient.on_failed Scenario.env;
     RestClient.Self.on_error :=
       RestClient.on_error Scenario.env (RestClient.exception_detail Scenario.env);
     RestClient.Self.exception_detail := RestClient.exception_detail Scenario.env |}.

End Resigning.

(** * Properties *)

(** ** The shape of one dispatch *)

Arguments RestClient.run_hook : simpl never.

Ltac norm_app :=
  repeat first [rewrite app_nil_l | rewrite app_nil_r | rewrite <- app_assoc].

Lemma ensure_session_heap (w : RestClient.World) :
  RestClient.heap (RestClient.ensure_session w) = RestClient.heap w.
Proof.
  unfold RestClient.ensure_session.
  destruct (RestClient.session (RestClient.client w)); reflexivity.
Qed.

Lemma ensure_session_url_base (w : RestClient.World) :
  RestClient.url_base (RestClient.client (RestClient.ensure_session w))
  = RestClient.url_base (RestClient.client w).
Proof.
  unfold RestClient.ensure_session.
  destruct (RestClient.session (RestClient.client w)); reflexivity.
Qed.

Lemma ensure_session_proxy (w : RestClient.World) :
  RestClient.proxy (RestClient.client (RestClient.ensure_session w))
  = RestClient.proxy (RestClient.client w).
Proof.
  unfold RestClient.ensure_session.
  destruct (RestClient.session (RestClient.client w)); reflexivity.
Qed.


Section Dispatch.

Variable E : RestClient.Env.
Variable self : RestClient.Self.vtable.

(** [_get_response] is [sign] followed by [dispatch] on what it returned. *)
Lemma get_response_unfold (request : Ref) (w : RestClient.World) :
  RestClient._get_response E self request w
  = match RestClient.Self.sign self request w with
    | (Ok signed, w1) => dispatch E signed w1
    | (Raise e, w1) => (Raise e, [], w1)
    end.
Proof.
  unfold RestClient._get_response, dispatch, call_of, RestClient.bind,
    RestClient.lift, RestClient.gets, RestClient.modify,
    RestClient.await_session_request, RestClient.emit,
    RestClient.of_result, RestClient.ret.
  destruct (RestClient.Self.sign self request w) as [[signed|e] w1];
    [| reflexivity].
  cbn. rewrite ensure_session_heap, ensure_session_proxy.
  destruct (RestClient.session_request E _) as [cr|e]; [| reflexivity].
  cbn. destruct (ClientResponse.text cr); reflexivity.
Qed.

(** [_process_request], case by case. *)
Ltac enter_handler E self :=
  unfold handled, error_path, RestClient.invoke, RestClient.bind,
    RestClient.emit, RestClient.lift, RestClient.gets;
  cbn;
  match goal with
  | |- context [Request.on_error ?r] => destruct (Request.on_error r)
  end;
  cbn;
  match goal with
  | |- context [RestClient.run_hook E self ?h ?w] =>
      destruct (RestClient.run_hook E self h w)
  end;
  norm_app; reflexivity.

Lemma process_request_unfold (request : Ref) (w : RestClient.World) :
  RestClient._process_request E self request w
  = match RestClient._get_response E self request w with
    | (Raise e, tr, w1) => raised_in_try E self request e tr w1
    | (Ok resp, tr, w1) =>
        if Z.eqb (Response.status_code resp / 100) 2 then
          match RestClient.loads E (Response.text resp) with
          | Raise e => raised_in_try E self request e tr w1
          | Ok body =>
              match Request.callback (RestClient.heap w1 request) with
              | Some f => guarded E self request (RestClient.Callback f body request) tr w1
              | None =>
                  handled E self request
                    (TypeError "'NoneType' object is not callable") tr w1
              end
          end
        else
          guarded E self request
            (failure_path (RestClient.heap w1 request)
               (Response.status_code resp) request) tr w1
    end.
Proof.
  unfold RestClient._process_request, RestClient.try_except.
  unfold RestClient.bind at 1.
  destruct (RestClient._get_response E self request w) as [[[resp|e] tr] w1].
  - destruct (Z.eqb (Response.status_code resp / 100) 2).
    + unfold Response.json, RestClient.bind, RestClient.gets, RestClient.of_result.
      destruct (RestClient.loads E (Response.text resp)) as [body|e].
      * destruct (Request.callback (RestClient.heap w1 request)) as [f|].
        -- unfold guarded, RestClient.invoke, RestClient.bind,
             RestClient.emit, RestClient.lift.
           destruct (RestClient.run_hook E self _ w1) as [[u|e] w2].
           ++ cbn. destruct u. norm_app. reflexivity.
           ++ cbn. destruct (is_Exception e);
                [enter_handler E self | norm_app; reflexivity].
        -- unfold RestClient.raise. cbn. enter_handler E self.
      * cbn. unfold raised_in_try.
        destruct (is_Exception e); [enter_handler E self | norm_app; reflexivity].
    + unfold guarded, failure_path, RestClient.invoke,
        RestClient.bind, RestClient.emit, RestClient.lift, RestClient.gets.
      cbn.
      destruct (Request.on_failed (RestClient.heap w1 request)); cbn;
        destruct (RestClient.run_hook E self _ w1) as [[u|e] w2]; cbn;
        try (destruct u; norm_app; reflexivity);
        (destruct (is_Exception e);
         [enter_handler E self | norm_app; reflexivity]).
  - unfold raised_in_try.
    destruct (is_Exception e); [enter_handler E self | reflexivity].
Qed.

Lemma hook_calls_app (tr1 tr2 : list RestClient.Event) :
  hook_calls (tr1 ++ tr2) = hook_calls tr1 ++ hook_calls tr2.
Proof.
  induction tr1 as [|ev tr1 IH]; [reflexivity |].
  destruct ev as [c|h]; cbn [hook_calls].
  - change ((RestClient.NetworkCall c :: tr1) ++ tr2)
      with (RestClient.NetworkCall c :: (tr1 ++ tr2)).
    cbn [hook_calls]. exact IH.
  - change ((RestClient.HookCall h :: tr1) ++ tr2)
      with (RestClient.HookCall h :: (tr1 ++ tr2)).
    cbn [hook_calls]. rewrite IH. reflexivity.
Qed.

Lemma dispatch_no_hooks (request : Ref) (w : RestClient.World) :
  hook_calls (snd (fst (dispatch E request w))) = [].
Proof.
  unfold dispatch.
  destruct (RestClient.session_request E _) as [cr|e]; [| reflexivity].
  destruct (ClientResponse.text cr); reflexivity.
Qed.

(** [_get_response] calls no completion hook. *)
Lemma get_response_no_hooks (request : Ref) (w : RestClient.World) :
  hook_calls (snd (fst (RestClient._get_response E self request w))) = [].
Proof.
  rewrite get_response_unfold.
  destruct (RestClient.Self.sign self request w) as [[signed|e] w1];
    [apply dispatch_no_hooks | reflexivity].
Qed.


Lemma error_path_is_error (r : Request.t) (e : Exn) (request : Ref) :
  is_error (error_path r e request) = true /\
  is_success (error_path r e request) = false /\
  is_failure (error_path r e request) = false.
Proof. unfold error_path. destruct (Request.on_error r); repeat split. Qed.





End Dispatch.

(** ** Request and its rendering *)

Lemma append_assoc (a b c : string) : (a +:+ b) +:+ c = a +:+ (b +:+ c).
Proof.
  induction a as [|x a IH]; [reflexivity |].
  change (String x ((a +:+ b) +:+ c) = String x (a +:+ (b +:+ c))).
  f_equal. exact IH.
Qed.

Section Rendering.

Variable fmt : PyObj -> string.

Lemma status_field_terminated (r : Request.t) :
  Request.status_field (Request.set_response None r) = "terminated".
Proof. reflexivity. Qed.

Lemma status_field_attached (r : Request.t) (resp : Response.t) :
  Request.status_field (Request.set_response (Some resp) r)
  = pretty (Response.status_code resp).
Proof. reflexivity. Qed.

(** C9. The rendering of a request shows [terminated] in the status slot
    while no response is attached and the decimal status code of the
    response once one is attached; the text around the slot, built from
    method, path, headers, params and data, is the same in both. *)
Theorem str_status_before_and_after (r : Request.t) (resp : Response.t) :
  let before := Request.set_response None r in
  let after := Request.set_response (Some resp) r in
  let lead := "request : " +:+ Request.method r +:+ " " +:+ Request.path r +:+ " because " in
  let fields :=
    ": " +:+ LF +:+ "headers: " +:+ fmt (Request.headers r) +:+ LF
         +:+ "params: " +:+ fmt (Request.params r) +:+ LF
         +:+ "data: " +:+ fmt (Request.data r) +:+ LF
         +:+ "response:" in
  Request.response before = None /\
  Request.response after = Some resp /\
  Request.__str__ fmt before = lead +:+ "terminated" +:+ fields +:+ LF /\
  Request.__str__ fmt after
  = lead +:+ pretty (Response.status_code resp) +:+ fields
         +:+ Response.text resp +:+ LF.
Proof.
  cbv zeta. unfold Request.__str__, Request.status_field. cbn [Request.set_response
    Request.response Request.method Request.path Request.headers Request.params
    Request.data].
  repeat split; rewrite !append_assoc; reflexivity.
Qed.

End Rendering.

Example str_of_answered_request :
  Request.__str__ Scenario.fmt
    (Request.set_response (Some (Response.__init__ 404 "not found"))
       (Request.__init__ "GET" "/missing" PyNone PyNone PyNone None None None PyNone))
  = "request : GET /missing because 404: " +:+ LF +:+ "headers: None" +:+ LF
      +:+ "params: None" +:+ LF +:+ "data: None" +:+ LF
      +:+ "response:not found" +:+ LF.
Proof. vm_compute. reflexivity. Qed.

(** ** The signing hook *)

(** C8. The [sign] of the base class returns the very request it was
    given and changes nothing: the object, with all its fields, is the
    one before the call. *)
Theorem default_sign_is_identity (E : RestClient.Env) (request : Ref)
    (w : RestClient.World) :
  RestClient.Self.sign (RestClient.base E) request w = (Ok request, w) /\
  RestClient.heap (snd (RestClient.sign request w)) request
  = RestClient.heap w request.
Proof. split; reflexivity. Qed.

(** ** Initialisation *)

Lemma proxy_guard (host : string) (port : Z) :
  negb (String.eqb host EmptyString) && negb (Z.eqb port 0) = true
  <-> host <> EmptyString /\ port <> 0.
Proof.
  rewrite andb_true_iff, !negb_true_iff.
  split; intros [Hh Hp]; split.
  - intros ->. discriminate.
  - apply Z.eqb_neq. exact Hp.
  - destruct (String.eqb_spec host EmptyString); [contradiction | reflexivity].
  - apply Z.eqb_neq. exact Hp.
Qed.

Lemma init_dispatch (E : RestClient.Env) (c : RestClient.t) (request : Ref)
    (w : RestClient.World) :
  exists call,
    network_calls
      (snd (fst (RestClient._get_response E (RestClient.base E) request
                   (RestClient.set_client c w))))
    = [call] /\
    ClientSession.url call
    = RestClient.url_base c +:+ Request.path (RestClient.heap w request) /\
    ClientSession.proxy call = RestClient.proxy c.
Proof.
  rewrite get_response_unfold. cbn [RestClient.base RestClient.Self.sign RestClient.sign].
  exists (call_of c (RestClient.heap w request)).
  unfold dispatch. cbn [RestClient.set_client RestClient.client RestClient.heap].
  destruct (RestClient.session_request E _) as [cr|e]; [| repeat split].
  destruct (ClientResponse.text cr); repeat split.
Qed.

(** C7. [init] stores the base URL, which [_make_full_url] then puts in
    front of any path by concatenation, and which the request sent by
    [_get_response] carries in front of the request's path. The proxy
    becomes [http://host:port] exactly when the host is not empty and the
    port is not zero; otherwise the field keeps its value, which on a new
    client is [None]. *)
Theorem init_base_url_and_proxy (base host : string) (port : Z)
    (self : RestClient.t) :
  let c := RestClient.init base host port self in
  let address := "http://" +:+ host +:+ ":" +:+ pretty port in
  RestClient.url_base c = base /\
  (forall path, RestClient._make_full_url c path = base +:+ path) /\
  (forall E request w,
     let w0 := RestClient.set_client c w in
     exists call,
       network_calls
         (snd (fst (RestClient._get_response E (RestClient.base E) request w0)))
       = [call] /\
       ClientSession.url call
       = base +:+ Request.path (RestClient.heap w request) /\
       ClientSession.proxy call = RestClient.proxy c) /\
  (host <> EmptyString /\ port <> 0 -> RestClient.proxy c = Some address) /\
  (~ (host <> EmptyString /\ port <> 0) ->
   RestClient.proxy c = RestClient.proxy self) /\
  (RestClient.proxy (RestClient.init base host port RestClient.__init__)
   = Some address <-> host <> EmptyString /\ port <> 0) /\
  (RestClient.proxy (RestClient.init base host port RestClient.__init__)
   = None <-> ~ (host <> EmptyString /\ port <> 0)).
Proof.
  cbv zeta.
  split; [reflexivity |]. split; [reflexivity |].
  split; [intros E request w;
          exact (init_dispatch E (RestClient.init base host port self) request w) |].
  unfold RestClient.init.
  cbn [RestClient.url_base RestClient.proxy RestClient.__init__].
  pose proof (proxy_guard host port) as G.
  destruct (negb (String.eqb host EmptyString) && negb (Z.eqb port 0)) eqn:B.
  - assert (Hg : host <> EmptyString /\ port <> 0) by (apply G; reflexivity).
    repeat split; try reflexivity; try tauto; try discriminate.
  - assert (Hg : ~ (host <> EmptyString /\ port <> 0)).
    { intros H. apply G in H. discriminate. }
    repeat split; try reflexivity; try tauto; try discriminate.
Qed.

Example init_with_proxy :
  RestClient.proxy (RestClient.init "https://api.example.com" "127.0.0.1" 7890
                      RestClient.__init__)
  = Some "http://127.0.0.1:7890".
Proof. vm_compute. reflexivity. Qed.

(** C7 at work: a host with port 7890, and a host with port 0. *)
Lemma init_base_url_and_proxy_witness :
  RestClient.proxy (RestClient.init "https://api.example.com" "127.0.0.1" 7890
                      RestClient.__init__)
  = Some ("http://" +:+ "127.0.0.1" +:+ ":" +:+ pretty 7890) /\
  RestClient.proxy (RestClient.init "https://api.example.com" "127.0.0.1" 0
                      RestClient.__init__)
  = None.
Proof.
  split.
  - apply (proj1 (proj2 (proj2 (proj2
             (init_base_url_and_proxy "https://api.example.com" "127.0.0.1" 7890
                RestClient.__init__))))).
    split; [discriminate | lia].
  - apply (proj2 (proj2 (proj2 (proj2 (proj2 (proj2
             (init_base_url_and_proxy "https://api.example.com" "127.0.0.1" 0
                RestClient.__init__))))))).
    intros [_ H]. apply H. reflexivity.
Defined.

(** ** Starting the worker *)

Lemma start_event_loop_running (l : Asyncio.Loop) (a : Asyncio.t) :
  Asyncio.is_running a l = true -> start_event_loop l a = a.
Proof. intros H. unfold start_event_loop. rewrite H. reflexivity. Qed.

Lemma start_event_loop_idle (l : Asyncio.Loop) (a : Asyncio.t) :
  Asyncio.is_running a l = false ->
  start_event_loop l a
  = Asyncio.thread_start {| Asyncio.target := l; Asyncio.daemon := true |} a.
Proof. intros H. unfold start_event_loop. rewrite H. reflexivity. Qed.

Lemma new_event_loop_idle (a : Asyncio.t) :
  Asyncio.is_running (snd (Asyncio.new_event_loop a))
    (fst (Asyncio.new_event_loop a)) = false.
Proof.
  unfold Asyncio.new_event_loop, Asyncio.is_running. cbn.
  rewrite lookup_app_r by reflexivity.
  rewrite Nat.sub_diag. reflexivity.
Qed.

(** What [start] does. [start_event_loop] starts no thread for a loop
    that is running. [start] called in a thread that runs a loop takes that
    loop and leaves loops and threads as they are. [start] called in a
    thread that runs no loop creates one more loop and starts one more
    daemon thread for it, whatever loop the client had before. *)
Theorem start_adopts_or_creates (n : Z) (w : RestClient.World) :
  (forall l a, Asyncio.is_running a l = true -> start_event_loop l a = a) /\
  (forall l,
     Asyncio.running_loop (RestClient.asyncio w) = Some l ->
     Asyncio.is_running (RestClient.asyncio w) l = true ->
     RestClient.asyncio (RestClient.start n w) = RestClient.asyncio w /\
     RestClient.loop (RestClient.client (RestClient.start n w)) = Some l) /\
  (Asyncio.running_loop (RestClient.asyncio w) = None ->
   let a := RestClient.asyncio w in
   let a' := RestClient.asyncio (RestClient.start n w) in
   let fresh := length (Asyncio.loops a) in
   Asyncio.loops a' = Asyncio.loops a ++ [false] /\
   Asyncio.threads a'
   = Asyncio.threads a ++ [{| Asyncio.target := fresh; Asyncio.daemon := true |}] /\
   RestClient.loop (RestClient.client (RestClient.start n w)) = Some fresh).
Proof.
  split; [exact start_event_loop_running |]. split.
  - intros l Hcur Hrun. unfold RestClient.start, Asyncio.get_running_loop.
    rewrite Hcur. cbn. rewrite (start_event_loop_running _ _ Hrun). split; reflexivity.
  - intros Hcur. cbv zeta. unfold RestClient.start, Asyncio.get_running_loop.
    rewrite Hcur.
    pose proof (new_event_loop_idle (RestClient.asyncio w)) as Hidle.
    destruct (Asyncio.new_event_loop (RestClient.asyncio w)) as [l a1] eqn:Hnew.
    cbn [fst snd] in Hidle. cbn.
    rewrite (start_event_loop_idle _ _ Hidle).
    unfold Asyncio.new_event_loop in Hnew. injection Hnew as <- <-.
    repeat split.
Qed.

(** The same call of [start] in a thread that runs loop 0, and in a
    thread that runs none. *)
Lemma start_adopts_or_creates_witness :
  RestClient.asyncio (RestClient.start 3 Scenario.on_loop)
  = RestClient.asyncio Scenario.on_loop /\
  Asyncio.loops (RestClient.asyncio (RestClient.start 3 Scenario.started))
  = [true; false].
Proof.
  split.
  - apply (proj1 (proj2 (start_adopts_or_creates 3 Scenario.on_loop)) 0%nat);
      reflexivity.
  - apply (proj2 (proj2 (start_adopts_or_creates 3 Scenario.started))).
    reflexivity.
Defined.

(** C5 fails on the code. The client has been started from a plain
    thread and its worker runs loop 0. A second [start] from the same
    thread is no no-op: [get_running_loop] raises there, so a second loop
    is created and a second daemon thread started for it; the client now
    names loop 1, and loop 0 goes on running with its thread, out of the
    client's reach. Two calls of [start] in a row, before the first thread
    has run, leave two threads as well. *)
Lemma start_twice_two_workers :
  Asyncio.running_loop (RestClient.asyncio Scenario.started) = None /\
  RestClient.loop (RestClient.client Scenario.started) = Some 0%nat /\
  Asyncio.is_running (RestClient.asyncio Scenario.started) 0%nat = true /\
  Asyncio.threads (RestClient.asyncio Scenario.started)
  = [{| Asyncio.target := 0%nat; Asyncio.daemon := true |}] /\
  RestClient.start 3 Scenario.started <> Scenario.started /\
  RestClient.loop (RestClient.client (RestClient.start 3 Scenario.started))
  = Some 1%nat /\
  Asyncio.loops (RestClient.asyncio (RestClient.start 3 Scenario.started))
  = [true; false] /\
  Asyncio.threads (RestClient.asyncio (RestClient.start 3 Scenario.started))
  = [{| Asyncio.target := 0%nat; Asyncio.daemon := true |};
     {| Asyncio.target := 1%nat; Asyncio.daemon := true |}] /\
  Asyncio.threads
    (RestClient.asyncio (RestClient.start 3 (RestClient.start 3 Scenario.configured)))
  = [{| Asyncio.target := 0%nat; Asyncio.daemon := true |};
     {| Asyncio.target := 1%nat; Asyncio.daemon := true |}].
Proof.
  repeat split; try reflexivity.
  intros H. apply (f_equal (fun w => RestClient.loop (RestClient.client w))) in H.
  discriminate H.
Qed.

(** ** Routing of the outcome *)

Lemma status_2xx (s : Z) : Z.eqb (s / 100) 2 = true <-> 200 <= s <= 299.
Proof.
  rewrite Z.eqb_eq. split.
  - intros H.
    pose proof (Z.mul_div_le s 100 ltac:(lia)).
    pose proof (Z.mul_succ_div_gt s 100 ltac:(lia)). lia.
  - intros H. symmetry. apply (Z.div_unique s 100 2 (s - 200)); lia.
Qed.


Section Routing.

Variable E : RestClient.Env.
Variable self : RestClient.Self.vtable.

Lemma count_single (p : RestClient.Hook -> bool) (tr : list RestClient.Event)
    (h : RestClient.Hook) :
  hook_calls tr = [h] -> count p tr = if p h then 1%nat else 0%nat.
Proof. intros H. unfold count. rewrite H. cbn. destruct (p h); reflexivity. Qed.

Lemma count_pair (p : RestClient.Hook -> bool) (tr : list RestClient.Event)
    (h1 h2 : RestClient.Hook) :
  hook_calls tr = [h1; h2] ->
  count p tr
  = ((if p h1 then 1 else 0) + (if p h2 then 1 else 0))%nat.
Proof.
  intros H. unfold count. rewrite H. cbn.
  destruct (p h1), (p h2); reflexivity.
Qed.

Lemma hook_calls_snoc (tr : list RestClient.Event) (h : RestClient.Hook) :
  hook_calls tr = [] -> hook_calls (tr ++ [RestClient.HookCall h]) = [h].
Proof. intros H. rewrite hook_calls_app, H. reflexivity. Qed.

Lemma hook_calls_snoc2 (tr : list RestClient.Event) (h1 h2 : RestClient.Hook) :
  hook_calls tr = [] ->
  hook_calls (tr ++ [RestClient.HookCall h1; RestClient.HookCall h2]) = [h1; h2].
Proof. intros H. rewrite hook_calls_app, H. reflexivity. Qed.



End Routing.

Section Classification.

Variable E : RestClient.Env.
Variable self : RestClient.Self.vtable.

Lemma count_cons_error (p : RestClient.Hook -> bool) (r : Request.t) (e : Exn)
    (request : Ref) :
  (p = is_success \/ p = is_failure) ->
  p (error_path r e request) = false.
Proof.
  destruct (error_path_is_error r e request) as (_ & Hs & Hf).
  intros [-> | ->]; assumption.
Qed.

(** C2, as the code has it. The network call answered with a status in
    200..299, the body decoded, and the request carries a callback: the
    callback is the first hook called, once, with the decoded body and the
    request passed to [_process_request], and no failure hook is called.
    When the callback returns, nothing else is called and the coroutine
    returns. When it raises an exception derived from [Exception], the
    error path of the request is called with that exception; when it
    raises another one, nothing else is called and the exception ends the
    coroutine. *)
Theorem success_callback_once (request : Ref) (w w1 : RestClient.World)
    (resp : Response.t) (tr1 : list RestClient.Event) (body : PyObj)
    (f : Callable) :
  RestClient._get_response E self request w = (Ok resp, tr1, w1) ->
  200 <= Response.status_code resp <= 299 ->
  Response.json (RestClient.loads E) resp = Ok body ->
  Request.callback (RestClient.heap w1 request) = Some f ->
  let out := RestClient._process_request E self request w in
  let tr := snd (fst out) in
  exists rest,
    hook_calls tr = RestClient.Callback f body request :: rest /\
    count is_success tr = 1%nat /\
    count is_failure tr = 0%nat /\
    (forall w2,
       RestClient.call_callback E f body request w1 = (Ok tt, w2) ->
       rest = [] /\ count is_error tr = 0%nat /\
       out = (Ok tt, tr1 ++ [RestClient.HookCall (RestClient.Callback f body request)], w2)) /\
    (forall e w2,
       RestClient.call_callback E f body request w1 = (Raise e, w2) ->
       is_Exception e = true ->
       rest = [error_path (RestClient.heap w2 request) e request]) /\
    (forall e w2,
       RestClient.call_callback E f body request w1 = (Raise e, w2) ->
       is_Exception e = false ->
       rest = [] /\ count is_error tr = 0%nat /\
       out = (Raise e, tr1 ++ [RestClient.HookCall (RestClient.Callback f body request)], w2)).
Proof.
  intros Hget Hs Hjson Hcb. cbv zeta.
  pose proof (get_response_no_hooks E self request w) as Hquiet.
  rewrite (process_request_unfold E self request w).
  rewrite Hget in *. cbn [fst snd] in Hquiet.
  apply status_2xx in Hs. rewrite Hs.
  unfold Response.json in Hjson. rewrite Hjson, Hcb.
  unfold guarded.
  change (RestClient.run_hook E self (RestClient.Callback f body request) w1)
    with (RestClient.call_callback E f body request w1).
  destruct (RestClient.call_callback E f body request w1) as [[[]|e] w2] eqn:Hrun.
  - exists []. cbn [fst snd].
    pose proof (hook_calls_snoc tr1 (RestClient.Callback f body request) Hquiet) as Hh.
    rewrite !(count_single _ _ _ Hh). cbn.
    split; [exact Hh |]. split; [reflexivity |]. split; [reflexivity |].
    split; [| split].
    + intros w2' Heq. injection Heq as <-. repeat split.
    + intros e w2' Heq. discriminate Heq.
    + intros e w2' Heq. discriminate Heq.
  - destruct (is_Exception e) eqn:He.
    + unfold handled.
      destruct (RestClient.run_hook E self _ w2) as [r w3].
      exists [error_path (RestClient.heap w2 request) e request]. cbn [fst snd].
      rewrite <- app_assoc.
      pose proof (hook_calls_snoc2 tr1 (RestClient.Callback f body request)
                    (error_path (RestClient.heap w2 request) e request) Hquiet) as Hh.
      change ([RestClient.HookCall (RestClient.Callback f body request)] ++
              [RestClient.HookCall (error_path (RestClient.heap w2 request) e request)])
        with [RestClient.HookCall (RestClient.Callback f body request);
              RestClient.HookCall (error_path (RestClient.heap w2 request) e request)].
      rewrite !(count_pair _ _ _ _ Hh).
      rewrite !count_cons_error by auto. cbn.
      split; [exact Hh |]. split; [reflexivity |]. split; [reflexivity |].
      split; [| split].
      * intros w2' Heq. discriminate Heq.
      * intros e' w2' Heq _. injection Heq as <- <-. reflexivity.
      * intros e' w2' Heq He'. injection Heq as <- <-. congruence.
    + exists []. cbn [fst snd].
      pose proof (hook_calls_snoc tr1 (RestClient.Callback f body request) Hquiet) as Hh.
      rewrite !(count_single _ _ _ Hh). cbn.
      split; [exact Hh |]. split; [reflexivity |]. split; [reflexivity |].
      split; [| split].
      * intros w2' Heq. discriminate Heq.
      * intros e' w2' Heq He'. injection Heq as <- <-. congruence.
      * intros e' w2' Heq _. injection Heq as <- <-. repeat split.
Qed.


End Classification.

(** ** Exceptions and the handler *)


Section Containment.

Variable E : RestClient.Env.
Variable self : RestClient.Self.vtable.



Section Frame.

Hypothesis sign_keeps_asyncio :
  forall r0 w0,
    RestClient.asyncio (snd (RestClient.Self.sign self r0 w0)) = RestClient.asyncio w0.
Hypothesis hooks_keep_asyncio :
  forall h w0,
    RestClient.asyncio (snd (RestClient.run_hook E self h w0)) = RestClient.asyncio w0.






End Frame.


End Containment.

(** ** The scenario of the specification, run *)

(** [/ping] answers 200 and the callback returns: the callback alone. *)
Example ping_calls_callback :
  hook_calls
    (snd (fst (RestClient._process_request Scenario.env
                 (RestClient.base Scenario.env) 0%nat
                 (Scenario.submitted "/ping" (Some Scenario.quiet) None None))))
  = [RestClient.Callback Scenario.quiet (PyList [PyInt 1; PyInt 2]) 0%nat].
Proof. vm_compute. reflexivity. Qed.

(** A refused connection: the client's [on_error] alone. *)
Example refused_connection_calls_on_error :
  hook_calls
    (snd (fst (RestClient._process_request Scenario.env
                 (RestClient.base Scenario.env) 0%nat
                 (Scenario.submitted "/down" (Some Scenario.quiet) None None))))
  = [RestClient.ClientOnError
       (mkExn "ClientConnectorError" "Cannot connect to host" []) 0%nat].
Proof. vm_compute. reflexivity. Qed.

(** A [sign] that raises, and a body that is no JSON: the error path alone. *)
Example failed_signing_and_decoding :
  hook_calls
    (snd (fst (RestClient._process_request Scenario.env Scenario.strict 0%nat
                 (Scenario.submitted "/ping" (Some Scenario.quiet) None None))))
  = [RestClient.ClientOnError (mkExn "KeyError" "secret" []) 0%nat] /\
  hook_calls
    (snd (fst (RestClient._process_request Scenario.env
                 (RestClient.base Scenario.env) 0%nat
                 (Scenario.submitted "/page" (Some Scenario.quiet) None None))))
  = [RestClient.ClientOnError (mkExn "JSONDecodeError" "Expecting value" []) 0%nat].
Proof. split; vm_compute; reflexivity. Qed.



(** C2 as stated fails. The status is 200, the body decodes, the callback
    is called with the decoded body, and the request's own error hook is
    called as well, because the callback raised. *)
Lemma raising_callback_reaches_error_hook :
  let w := Scenario.submitted "/ping" (Some Scenario.faulty) None (Some Scenario.quiet) in
  let self := RestClient.base Scenario.env in
  fst (fst (RestClient._get_response Scenario.env self 0%nat w))
  = Ok (Response.__init__ 200 "[1, 2]") /\
  Response.json (RestClient.loads Scenario.env) (Response.__init__ 200 "[1, 2]")
  = Ok (PyList [PyInt 1; PyInt 2]) /\
  hook_calls (snd (fst (RestClient._process_request Scenario.env self 0%nat w)))
  = [RestClient.Callback Scenario.faulty (PyList [PyInt 1; PyInt 2]) 0%nat;
     RestClient.RequestOnError Scenario.quiet (mkExn "ValueError" "boom" []) 0%nat] /\
  count is_error (snd (fst (RestClient._process_request Scenario.env self 0%nat w)))
  = 1%nat.
Proof. cbv zeta. repeat split; vm_compute; reflexivity. Qed.

(** C2 at work: [/ping] with a callback that returns, and with a callback
    that raises [CancelledError]. *)
Lemma success_callback_once_witness :
  let w := Scenario.submitted "/ping" (Some Scenario.quiet) None None in
  let self := RestClient.base Scenario.env in
  let tr := snd (fst (RestClient._process_request Scenario.env self 0%nat w)) in
  200 <= 200 <= 299 /\
  (exists rest,
     hook_calls tr
     = RestClient.Callback Scenario.quiet (PyList [PyInt 1; PyInt 2]) 0%nat :: rest /\
     count is_success tr = 1%nat /\
     count is_failure tr = 0%nat) /\
  is_Exception CancelledError = false /\
  RestClient._process_request Scenario.env self 0%nat
    (Scenario.submitted "/ping" (Some Scenario.cancelled) None None)
  = (Raise CancelledError,
     snd (fst (RestClient._get_response Scenario.env self 0%nat
                 (Scenario.submitted "/ping" (Some Scenario.cancelled) None None)))
       ++ [RestClient.HookCall
             (RestClient.Callback Scenario.cancelled (PyList [PyInt 1; PyInt 2]) 0%nat)],
     snd (RestClient._get_response Scenario.env self 0%nat
            (Scenario.submitted "/ping" (Some Scenario.cancelled) None None))).
Proof.
  cbv zeta. split; [lia |].
  set (w := Scenario.submitted "/ping" (Some Scenario.quiet) None None).
  set (w' := Scenario.submitted "/ping" (Some Scenario.cancelled) None None).
  set (self := RestClient.base Scenario.env).
  split; [| split; [reflexivity |]].
  - destruct (success_callback_once Scenario.env self 0%nat w
                (snd (RestClient._get_response Scenario.env self 0%nat w))
                (Response.__init__ 200 "[1, 2]")
                (snd (fst (RestClient._get_response Scenario.env self 0%nat w)))
                (PyList [PyInt 1; PyInt 2]) Scenario.quiet
                ltac:(vm_compute; reflexivity) ltac:(cbn; lia)
                ltac:(vm_compute; reflexivity) ltac:(vm_compute; reflexivity))
      as (rest & Hcalls & Hs & Hf & _).
    exists rest. repeat split; assumption.
  - destruct (success_callback_once Scenario.env self 0%nat w'
                (snd (RestClient._get_response Scenario.env self 0%nat w'))
                (Response.__init__ 200 "[1, 2]")
                (snd (fst (RestClient._get_response Scenario.env self 0%nat w')))
                (PyList [PyInt 1; PyInt 2]) Scenario.cancelled
                ltac:(vm_compute; reflexivity) ltac:(cbn; lia)
                ltac:(vm_compute; reflexivity) ltac:(vm_compute; reflexivity))
      as (rest & _ & _ & _ & _ & _ & Hpass).
    apply (Hpass CancelledError
             (snd (RestClient._get_response Scenario.env self 0%nat w')));
      reflexivity.
Defined.





(** ** The synchronous call *)

Lemma attach_response_lookup (request : Ref) (resp : Response.t)
    (w : RestClient.World) :
  Request.response (RestClient.heap (RestClient.attach_response request resp w) request)
  = Some resp.
Proof.
  unfold RestClient.attach_response. cbn [RestClient.set_heap RestClient.heap].
  rewrite fn_lookup_insert. reflexivity.
Qed.


Section Synchronous.

Variable E : RestClient.Env.
Variable self : RestClient.Self.vtable.

Lemma request_unfold (method path : string) (params data headers : PyObj)
    (w : RestClient.World) :
  let made := Request.__init__ method path params data headers None None None PyNone in
  let w0 := snd (RestClient.new_request made w) in
  RestClient.serves (RestClient.asyncio w) (RestClient.loop (RestClient.client w)) = true ->
  RestClient.request E self method path params data headers w
  = match RestClient._get_response E self (RestClient.next_ref w) w0 with
    | (Ok resp, tr, w3) => (RestClient.Returned resp, tr, w3)
    | (Raise e, tr, w3) =>
        (RestClient.Raised (RestClient.result_exception E e), tr, w3)
    end.
Proof.
  cbv zeta. intros Hserves.
  unfold RestClient.request, RestClient.new_request, RestClient.run_coroutine_threadsafe.
  cbn [fst snd RestClient.client RestClient.asyncio].
  destruct (RestClient.loop (RestClient.client w)) as [l|]; [| discriminate Hserves].
  rewrite Hserves. reflexivity.
Qed.

(** C10. [request] calls no completion hook, whatever happens. The
    request it constructs has no callback and no hooks. When the loop
    serves the caller, the result of the call is the result of
    [_get_response] on that request: a response of any status, 2xx or
    not, is returned as a value, and it is attached to the signed request
    in the state the call leaves. *)
Theorem request_calls_no_hook (method path : string) (params data headers : PyObj)
    (w : RestClient.World) :
  let r := RestClient.next_ref w in
  let made := Request.__init__ method path params data headers None None None PyNone in
  let w0 := snd (RestClient.new_request made w) in
  let out := RestClient.request E self method path params data headers w in
  hook_calls (snd (fst out)) = [] /\
  (RestClient.heap w0 r = made /\
   Request.callback made = None /\
   Request.on_failed made = None /\
   Request.on_error made = None) /\
  (forall signed w1 cr text,
     RestClient.serves (RestClient.asyncio w) (RestClient.loop (RestClient.client w)) = true ->
     RestClient.Self.sign self r w0 = (Ok signed, w1) ->
     RestClient.session_request E
       (call_of (RestClient.client w1) (RestClient.heap w1 signed)) = Ok cr ->
     ClientResponse.text cr = Ok text ->
     let resp := Response.__init__ (ClientResponse.status cr) text in
     fst (fst out) = RestClient.Returned resp /\
     Request.response (RestClient.heap (snd out) signed) = Some resp).
Proof.
  cbv zeta. split; [| split].
  - unfold RestClient.request.
    destruct (RestClient.new_request _ w) as [r w1].
    destruct (RestClient.run_coroutine_threadsafe _ _ w1) as [[u|e] w2];
      [| reflexivity].
    destruct (RestClient.serves _ _); [| reflexivity].
    pose proof (get_response_no_hooks E self r w1) as Hquiet.
    destruct (RestClient._get_response E self r w1) as [[[resp|e] tr] w3];
      exact Hquiet.
  - unfold RestClient.new_request. cbn [snd RestClient.heap].
    rewrite fn_lookup_insert. repeat split.
  - intros signed w1 cr text Hserves Hsign Hcall Htext.
    rewrite (request_unfold method path params data headers w Hserves).
    rewrite get_response_unfold, Hsign.
    unfold dispatch. rewrite Hcall, Htext. cbn [fst snd].
    split; [reflexivity | apply attach_response_lookup].
Qed.

End Synchronous.

(** C10 at work: the synchronous call of [/missing] returns the 404
    response as a value and calls nothing. *)
Lemma request_calls_no_hook_witness :
  let self := RestClient.base Scenario.env in
  let out :=
    RestClient.request Scenario.env self "GET" "/missing" PyNone PyNone PyNone
      Scenario.started in
  fst (fst out) = RestClient.Returned (Response.__init__ 404 "not found") /\
  Request.response (RestClient.heap (snd out) 0%nat)
  = Some (Response.__init__ 404 "not found") /\
  hook_calls (snd (fst out)) = [].
Proof.
  cbv zeta.
  pose proof (request_calls_no_hook Scenario.env (RestClient.base Scenario.env)
                "GET" "/missing" PyNone PyNone PyNone Scenario.started)
    as (Hquiet & _ & Hret).
  destruct (Hret 0%nat
              (snd (RestClient.new_request
                      (Request.__init__ "GET" "/missing" PyNone PyNone PyNone
                         None None None PyNone) Scenario.started))
              {| ClientResponse.status := 404; ClientResponse.text := Ok "not found" |}
              "not found") as [H1 H2];
    try (vm_compute; reflexivity).
  repeat split; assumption.
Defined.

(** ** The two calling conventions *)

Lemma take_scheduled_snoc (l : Asyncio.Loop) (coro : Asyncio.Coroutine)
    (s : list (Asyncio.Loop * Asyncio.Coroutine)) :
  Asyncio.take_scheduled l s = None ->
  Asyncio.take_scheduled l (s ++ [(l, coro)]) = Some (coro, s).
Proof.
  induction s as [|[l' c'] s IH]; intros H.
  - cbn. rewrite Nat.eqb_refl. reflexivity.
  - change (((l', c') :: s) ++ [(l, coro)]) with ((l', c') :: (s ++ [(l, coro)])).
    cbn [Asyncio.take_scheduled] in *.
    destruct (Nat.eqb l' l); [discriminate H |].
    destruct (Asyncio.take_scheduled l s) as [[c rest]|]; [discriminate H |].
    rewrite IH by reflexivity. reflexivity.
Qed.


Section Conventions.

Variable E : RestClient.Env.
Variable self : RestClient.Self.vtable.



End Conventions.



(** * Further properties of the client *)

(** ** Stopping, and loops that do not run *)

Lemma is_running_set_running_same (l : Asyncio.Loop) (b : bool) (a : Asyncio.t) :
  Asyncio.is_running (Asyncio.set_running l b a) l
  = match Asyncio.loops a !! l with
    | Some _ => b
    | None => false
    end.
Proof.
  unfold Asyncio.is_running, Asyncio.set_running. cbn [Asyncio.loops].
  destruct (Asyncio.loops a !! l) as [b0|] eqn:Hl.
  - rewrite list_lookup_insert_eq by (eapply lookup_lt_Some; exact Hl).
    reflexivity.
  - rewrite list_insert_ge by (apply lookup_ge_None; exact Hl).
    rewrite Hl. reflexivity.
Qed.

Lemma is_running_set_running_other (l l' : Asyncio.Loop) (b : bool) (a : Asyncio.t) :
  l <> l' ->
  Asyncio.is_running (Asyncio.set_running l b a) l' = Asyncio.is_running a l'.
Proof.
  intros Hne. unfold Asyncio.is_running, Asyncio.set_running. cbn [Asyncio.loops].
  rewrite list_lookup_insert_ne by exact Hne. reflexivity.
Qed.

Lemma stop_requested_stop (l : Asyncio.Loop) (a : Asyncio.t) :
  Asyncio.stop_requested (Asyncio.stop l a) l = true.
Proof.
  unfold Asyncio.stop.
  destruct (Asyncio.stop_requested a l) eqn:Hreq; [exact Hreq |].
  unfold Asyncio.stop_requested. cbn [Asyncio.stopping existsb].
  rewrite Nat.eqb_refl. reflexivity.
Qed.

Lemma loops_stop (l : Asyncio.Loop) (a : Asyncio.t) :
  Asyncio.loops (Asyncio.stop l a) = Asyncio.loops a.
Proof.
  unfold Asyncio.stop. destruct (Asyncio.stop_requested a l); reflexivity.
Qed.

Lemma not_requested_after_filter (l : Asyncio.Loop) (ls : list Asyncio.Loop) :
  existsb (Nat.eqb l) (List.filter (fun l' => negb (Nat.eqb l l')) ls) = false.
Proof.
  induction ls as [|l' ls IH]; [reflexivity |].
  cbn [List.filter]. destruct (Nat.eqb l l') eqn:Heq; cbn [negb].
  - exact IH.
  - cbn [existsb]. rewrite Heq. exact IH.
Qed.

Lemma exit_run_forever_stops (l : Asyncio.Loop) (a : Asyncio.t) :
  Asyncio.stop_requested a l = true ->
  Asyncio.is_running (Asyncio.exit_run_forever l a) l = false /\
  Asyncio.stop_requested (Asyncio.exit_run_forever l a) l = false.
Proof.
  intros Hreq. unfold Asyncio.exit_run_forever. rewrite Hreq. split.
  - unfold Asyncio.is_running. cbn [Asyncio.loops].
    destruct (Asyncio.loops a !! l) as [b0|] eqn:Hl.
    + rewrite list_lookup_insert_eq by (eapply lookup_lt_Some; exact Hl).
      reflexivity.
    + rewrite list_insert_ge by (apply lookup_ge_None; exact Hl).
      rewrite Hl. reflexivity.
  - unfold Asyncio.stop_requested. cbn [Asyncio.stopping].
    apply not_requested_after_filter.
Qed.

(** X1. [stop] is idempotent, and it only asks the client's loop to stop:
    [is_running()] answers as before for every loop, and the loop's own
    answer turns to [False] when the loop leaves [run_forever]. [stop] is
    a no-op on a client that was never started or whose loop is not
    running. The objects, the client's fields, the output, the loops, the
    threads and the queued coroutines stay as they were. *)
Theorem stop_idempotent (w : RestClient.World) :
  RestClient.stop (RestClient.stop w) = RestClient.stop w /\
  (RestClient.loop (RestClient.client w) = None -> RestClient.stop w = w) /\
  (forall l,
     RestClient.loop (RestClient.client w) = Some l ->
     Asyncio.is_running (RestClient.asyncio w) l = false ->
     RestClient.stop w = w) /\
  RestClient.heap (RestClient.stop w) = RestClient.heap w /\
  RestClient.client (RestClient.stop w) = RestClient.client w /\
  RestClient.stdout (RestClient.stop w) = RestClient.stdout w /\
  RestClient.stderr (RestClient.stop w) = RestClient.stderr w /\
  Asyncio.loops (RestClient.asyncio (RestClient.stop w))
  = Asyncio.loops (RestClient.asyncio w) /\
  Asyncio.threads (RestClient.asyncio (RestClient.stop w))
  = Asyncio.threads (RestClient.asyncio w) /\
  Asyncio.scheduled (RestClient.asyncio (RestClient.stop w))
  = Asyncio.scheduled (RestClient.asyncio w) /\
  (forall l',
     Asyncio.is_running (RestClient.asyncio (RestClient.stop w)) l'
     = Asyncio.is_running (RestClient.asyncio w) l') /\
  (forall l,
     RestClient.loop (RestClient.client w) = Some l ->
     Asyncio.is_running (RestClient.asyncio w) l = true ->
     let a := RestClient.asyncio (RestClient.stop w) in
     Asyncio.stop_requested a l = true /\
     Asyncio.is_running (Asyncio.exit_run_forever l a) l = false /\
     Asyncio.stop_requested (Asyncio.exit_run_forever l a) l = false).
Proof.
  assert (Hframe : forall l a,
    Asyncio.threads (Asyncio.stop l a) = Asyncio.threads a /\
    Asyncio.scheduled (Asyncio.stop l a) = Asyncio.scheduled a /\
    Asyncio.stop l (Asyncio.stop l a) = Asyncio.stop l a).
  { intros l a. unfold Asyncio.stop at 3 5.
    rewrite stop_requested_stop.
    unfold Asyncio.stop. destruct (Asyncio.stop_requested a l); repeat split. }
  unfold RestClient.stop.
  destruct (RestClient.loop (RestClient.client w)) as [l|] eqn:Hloop.
  - destruct (Asyncio.is_running (RestClient.asyncio w) l) eqn:Hrun.
    + destruct (Hframe l (RestClient.asyncio w)) as (Hth & Hsch & Hidem).
      cbn [RestClient.set_asyncio RestClient.client RestClient.asyncio
           RestClient.heap RestClient.stdout RestClient.stderr].
      rewrite Hloop. unfold Asyncio.is_running at 1.
      rewrite loops_stop. fold (Asyncio.is_running (RestClient.asyncio w) l).
      rewrite Hrun. cbn [RestClient.set_asyncio]. rewrite Hidem.
      split; [reflexivity |].
      split; [discriminate |].
      split; [intros l0 H Hidle; injection H as <-; congruence |].
      do 4 (split; [reflexivity |]).
      split; [first [reflexivity | apply loops_stop] |].
      split; [exact Hth |].
      split; [exact Hsch |].
      split; [intros l'; unfold Asyncio.is_running; rewrite loops_stop; reflexivity |].
      intros l0 H _. injection H as <-. cbv zeta.
      split; [apply stop_requested_stop |].
      apply exit_run_forever_stops, stop_requested_stop.
    + rewrite Hloop, Hrun.
      do 10 (split; [reflexivity |]).
      split; [reflexivity |].
      intros l0 H Hrun'. injection H as <-. congruence.
  - rewrite Hloop.
    split; [reflexivity |].
    do 10 (split; [reflexivity |]).
    discriminate.
Qed.

(** X1 at work: the started client of the scenario is still running right
    after [stop], and not running once its loop has left [run_forever]. *)
Lemma stop_idempotent_witness :
  Asyncio.is_running (RestClient.asyncio Scenario.started) 0%nat = true /\
  Asyncio.is_running
    (RestClient.asyncio (RestClient.stop Scenario.started)) 0%nat = true /\
  Asyncio.is_running
    (Asyncio.exit_run_forever 0%nat
       (RestClient.asyncio (RestClient.stop Scenario.started))) 0%nat = false.
Proof.
  split; [reflexivity |]. split; [reflexivity |].
  pose proof (stop_idempotent Scenario.started) as H.
  do 11 apply proj2 in H.
  exact (proj1 (proj2 (H 0%nat eq_refl eq_refl))).
Defined.

(** What [start] leaves behind when the calling thread runs no loop. *)
Lemma start_adopts_or_creates_frame (n : Z) (w : RestClient.World) :
  Asyncio.running_loop (RestClient.asyncio w) = None ->
  Asyncio.loops (RestClient.asyncio (RestClient.start n w))
  = Asyncio.loops (RestClient.asyncio w) ++ [false] /\
  Asyncio.running_loop (RestClient.asyncio (RestClient.start n w)) = None /\
  RestClient.loop (RestClient.client (RestClient.start n w))
  = Some (length (Asyncio.loops (RestClient.asyncio w))).
Proof.
  intros Hcur. unfold RestClient.start, Asyncio.get_running_loop.
  rewrite Hcur.
  pose proof (new_event_loop_idle (RestClient.asyncio w)) as Hidle.
  destruct (Asyncio.new_event_loop (RestClient.asyncio w)) as [l a1] eqn:Hnew.
  cbn [fst snd] in Hidle. cbn.
  rewrite (start_event_loop_idle _ _ Hidle).
  unfold Asyncio.new_event_loop in Hnew. injection Hnew as <- <-.
  cbn. rewrite Hcur. repeat split.
Qed.

Section Submission.

Variable E : RestClient.Env.
Variable self : RestClient.Self.vtable.

Lemma serves_idle (a : Asyncio.t) (l : Asyncio.Loop) :
  Asyncio.is_running a l = false -> RestClient.serves a (Some l) = false.
Proof. intros H. unfold RestClient.serves. rewrite H. reflexivity. Qed.

(** X2. While the client's loop is not running (its thread has not run
    it yet, or the loop has left [run_forever]), submissions are accepted
    and wait: [add_request] returns the new request with its coroutine
    queued, the caller of [request] waits in [fut.result()] with its
    coroutine queued and no network call made, and a turn of the worker
    does nothing. The wait ends with the loop running: once the thread has
    entered [run_event_loop], the worker's turn runs the queued coroutine,
    [_get_response] for [request] and [_process_request] for
    [add_request], on the request that was constructed. *)
Theorem idle_loop_accepts_and_waits (method path : string)
    (callback : option Callable) (params data headers : PyObj)
    (on_failed on_error : option Callable) (extra : PyObj)
    (w : RestClient.World) (l : Asyncio.Loop) :
  RestClient.loop (RestClient.client w) = Some l ->
  Asyncio.is_running (RestClient.asyncio w) l = false ->
  let sync := RestClient.request E self method path params data headers w in
  let async :=
    RestClient.add_request method path callback params data headers
      on_failed on_error extra w in
  let run := fun w' : RestClient.World =>
    RestClient.set_asyncio (run_event_loop l (RestClient.asyncio w')) w' in
  let made_sync :=
    Request.__init__ method path params data headers None None None PyNone in
  let made_async :=
    Request.__init__ method path params data headers
      callback on_failed on_error extra in
  fst (fst sync) = RestClient.Blocked /\
  snd (fst sync) = [] /\
  Asyncio.scheduled (RestClient.asyncio (snd sync))
  = Asyncio.scheduled (RestClient.asyncio w)
      ++ [(l, Asyncio.GetResponse (RestClient.next_ref w))] /\
  fst async = Ok (RestClient.next_ref w) /\
  Asyncio.scheduled (RestClient.asyncio (snd async))
  = Asyncio.scheduled (RestClient.asyncio w)
      ++ [(l, Asyncio.ProcessRequest (RestClient.next_ref w))] /\
  RestClient.worker_step E self l (snd sync) = (Ok tt, [], snd sync) /\
  RestClient.worker_step E self l (snd async) = (Ok tt, [], snd async) /\
  ((l < length (Asyncio.loops (RestClient.asyncio w)))%nat ->
   Asyncio.take_scheduled l (Asyncio.scheduled (RestClient.asyncio w)) = None ->
   RestClient.worker_step E self l (run (snd sync))
   = RestClient.run_coroutine E self
       (Asyncio.GetResponse (RestClient.next_ref w))
       (run (snd (RestClient.new_request made_sync w))) /\
   RestClient.worker_step E self l (run (snd async))
   = RestClient.run_coroutine E self
       (Asyncio.ProcessRequest (RestClient.next_ref w))
       (run (snd (RestClient.new_request made_async w)))).
Proof.
  intros Hloop Hidle. cbv zeta.
  unfold RestClient.request, RestClient.add_request, RestClient.new_request,
    RestClient.run_coroutine_threadsafe.
  cbn [RestClient.client RestClient.asyncio]. rewrite Hloop.
  rewrite (serves_idle _ _ Hidle). cbn [fst snd RestClient.set_asyncio
    RestClient.asyncio Asyncio.set_scheduled Asyncio.scheduled].
  do 5 (split; [reflexivity |]).
  split; [| split].
  - unfold RestClient.worker_step, Asyncio.is_running in *.
    cbn. rewrite Hidle. reflexivity.
  - unfold RestClient.worker_step, Asyncio.is_running in *.
    cbn. rewrite Hidle. reflexivity.
  - intros Hlt Hfree.
    assert (Hrun : forall s : unit,
      match <[l := true]> (Asyncio.loops (RestClient.asyncio w)) !! l with
      | Some b => b
      | None => false
      end = true).
    { intros _. rewrite list_lookup_insert_eq by exact Hlt. reflexivity. }
    unfold RestClient.worker_step, Asyncio.is_running, run_event_loop,
      Asyncio.run_forever, Asyncio.set_running.
    cbn [RestClient.asyncio RestClient.set_asyncio Asyncio.loops
         Asyncio.scheduled Asyncio.set_scheduled].
    rewrite (Hrun tt), !(take_scheduled_snoc _ _ _ Hfree).
    split; reflexivity.
Qed.

(** X3. On a client that was never started ([loop] is [None]) both
    submissions fail with the [AttributeError] of
    [run_coroutine_threadsafe]: no network call, no hook, nothing queued.
    The [Request] object has been constructed all the same. *)
Theorem submission_before_start (method path : string)
    (callback : option Callable) (params data headers : PyObj)
    (on_failed on_error : option Callable) (extra : PyObj)
    (w : RestClient.World) :
  RestClient.loop (RestClient.client w) = None ->
  let sync := RestClient.request E self method path params data headers w in
  let async :=
    RestClient.add_request method path callback params data headers
      on_failed on_error extra w in
  (exists msg, fst (fst sync) = RestClient.Raised (AttributeError msg)) /\
  snd (fst sync) = [] /\
  (exists msg, fst async = Raise (AttributeError msg)) /\
  RestClient.asyncio (snd sync) = RestClient.asyncio w /\
  RestClient.asyncio (snd async) = RestClient.asyncio w /\
  RestClient.next_ref (snd async) = S (RestClient.next_ref w) /\
  RestClient.heap (snd async) (RestClient.next_ref w)
  = Request.__init__ method path params data headers
      callback on_failed on_error extra.
Proof.
  intros Hloop. cbv zeta.
  unfold RestClient.request, RestClient.add_request, RestClient.new_request,
    RestClient.run_coroutine_threadsafe.
  cbn [RestClient.client RestClient.asyncio]. rewrite Hloop.
  cbn [fst snd RestClient.asyncio RestClient.next_ref RestClient.heap].
  rewrite fn_lookup_insert.
  split; [eexists; reflexivity |].
  split; [reflexivity |].
  split; [eexists; reflexivity |].
  repeat split.
Qed.

End Submission.

(** X2 at work: the client of the scenario right after [start()], before
    its thread runs the loop, and then with the loop running. *)
Lemma idle_loop_accepts_and_waits_witness :
  let w := RestClient.start 3 Scenario.configured in
  let sync :=
    RestClient.request Scenario.env (RestClient.base Scenario.env)
      "GET" "/ping" PyNone PyNone PyNone w in
  let running :=
    RestClient.set_asyncio
      (run_event_loop 0%nat (RestClient.asyncio (snd sync))) (snd sync) in
  fst (fst sync) = RestClient.Blocked /\
  fst (RestClient.add_request "GET" "/ping" (Some Scenario.quiet) PyNone PyNone
         PyNone None None PyNone w)
  = Ok 0%nat /\
  Request.response
    (RestClient.heap
       (snd (RestClient.worker_step Scenario.env (RestClient.base Scenario.env)
               0%nat running)) 0%nat)
  = Some (Response.__init__ 200 "[1, 2]").
Proof.
  cbv zeta.
  destruct (idle_loop_accepts_and_waits Scenario.env (RestClient.base Scenario.env)
              "GET" "/ping" (Some Scenario.quiet) PyNone PyNone PyNone None None
              PyNone (RestClient.start 3 Scenario.configured) 0%nat
              eq_refl eq_refl)
    as (Hblocked & _ & _ & Hadd & _ & _ & _ & Hserved).
  split; [exact Hblocked |]. split; [exact Hadd |].
  destruct (Hserved ltac:(vm_compute; lia) eq_refl) as [Hturn _].
  rewrite Hturn. vm_compute. reflexivity.
Defined.

(** X3 at work: the client of the scenario after [init], before [start]. *)
Lemma submission_before_start_witness :
  exists msg,
    fst (RestClient.add_request "GET" "/ping" (Some Scenario.quiet) PyNone PyNone
           PyNone None None PyNone Scenario.configured)
    = Raise (AttributeError msg).
Proof.
  destruct (submission_before_start Scenario.env (RestClient.base Scenario.env)
              "GET" "/ping" (Some Scenario.quiet) PyNone PyNone PyNone None None
              PyNone Scenario.configured)
    as (_ & _ & Hadd & _).
  - reflexivity.
  - exact Hadd.
Defined.

(** ** Threads and loops *)

Section OwnLoop.

Variable E : RestClient.Env.
Variable self : RestClient.Self.vtable.


End OwnLoop.


(** X6. The guard of [start_event_loop] looks at [is_running], which only
    the background thread sets when it gets to run: for a loop that
    exists and does not run, calling [start_event_loop] twice before the
    first thread has run starts two threads on the same loop, while after
    the first thread has run [run_event_loop] a further call starts none. *)
Theorem start_event_loop_before_thread_runs (l : Asyncio.Loop) (a : Asyncio.t) :
  Asyncio.loops a !! l = Some false ->
  let t := {| Asyncio.target := l; Asyncio.daemon := true |} in
  Asyncio.threads (start_event_loop l (start_event_loop l a))
  = Asyncio.threads a ++ [t; t] /\
  start_event_loop l (run_event_loop l (start_event_loop l a))
  = run_event_loop l (start_event_loop l a) /\
  Asyncio.threads (run_event_loop l (start_event_loop l a))
  = Asyncio.threads a ++ [t].
Proof.
  intros Hl. cbv zeta.
  assert (Hidle : Asyncio.is_running a l = false).
  { unfold Asyncio.is_running. rewrite Hl. reflexivity. }
  rewrite (start_event_loop_idle l a Hidle).
  split; [| split].
  - rewrite start_event_loop_idle by exact Hidle.
    cbn [Asyncio.thread_start Asyncio.threads].
    rewrite <- app_assoc. reflexivity.
  - apply start_event_loop_running.
    unfold run_event_loop, Asyncio.run_forever.
    rewrite is_running_set_running_same.
    cbn [Asyncio.thread_start Asyncio.loops]. rewrite Hl. reflexivity.
  - reflexivity.
Qed.

(** X6 at work: the loop that [new_event_loop] creates first. *)
Lemma start_event_loop_before_thread_runs_witness :
  length
    (Asyncio.threads
       (start_event_loop 0%nat
          (start_event_loop 0%nat
             (snd (Asyncio.new_event_loop
                     (RestClient.asyncio Scenario.fresh))))))
  = 2%nat.
Proof.
  rewrite (proj1 (start_event_loop_before_thread_runs 0%nat
                    (snd (Asyncio.new_event_loop (RestClient.asyncio Scenario.fresh)))
                    eq_refl)).
  reflexivity.
Defined.

(** ** One request, one network call *)

Lemma network_calls_app (tr1 tr2 : list RestClient.Event) :
  network_calls (tr1 ++ tr2) = network_calls tr1 ++ network_calls tr2.
Proof.
  induction tr1 as [|ev tr1 IH]; [reflexivity |].
  destruct ev as [c|h].
  - change ((RestClient.NetworkCall c :: tr1) ++ tr2)
      with (RestClient.NetworkCall c :: (tr1 ++ tr2)).
    cbn [network_calls]. rewrite IH. reflexivity.
  - change ((RestClient.HookCall h :: tr1) ++ tr2)
      with (RestClient.HookCall h :: (tr1 ++ tr2)).
    cbn [network_calls]. exact IH.
Qed.

Lemma network_calls_hooks (hs : list RestClient.Hook) :
  network_calls (map RestClient.HookCall hs) = [].
Proof. induction hs as [|h hs IH]; [reflexivity | exact IH]. Qed.

Section NetworkCalls.

Variable E : RestClient.Env.
Variable self : RestClient.Self.vtable.

(** The log of [_process_request] is the log of [_get_response] followed
    by hook calls. *)
Lemma process_request_trace (request : Ref) (w : RestClient.World) :
  exists hs,
    snd (fst (RestClient._process_request E self request w))
    = snd (fst (RestClient._get_response E self request w))
        ++ map RestClient.HookCall hs.
Proof.
  assert (Hhandled : forall e tr w1,
    exists hs, snd (fst (handled E self request e tr w1))
               = tr ++ map RestClient.HookCall hs).
  { intros e tr w1. unfold handled.
    destruct (RestClient.run_hook E self _ w1) as [r w2].
    exists [error_path (RestClient.heap w1 request) e request]. reflexivity. }
  assert (Hraised : forall e tr w1,
    exists hs, snd (fst (raised_in_try E self request e tr w1))
               = tr ++ map RestClient.HookCall hs).
  { intros e tr w1. unfold raised_in_try.
    destruct (is_Exception e); [apply Hhandled |].
    exists []. cbn [fst snd map]. rewrite app_nil_r. reflexivity. }
  assert (Hguarded : forall h tr w1,
    exists hs, snd (fst (guarded E self request h tr w1))
               = tr ++ map RestClient.HookCall hs).
  { intros h tr w1. unfold guarded.
    destruct (RestClient.run_hook E self h w1) as [[u|e] w2].
    - exists [h]. reflexivity.
    - destruct (is_Exception e).
      + destruct (Hhandled e (tr ++ [RestClient.HookCall h]) w2) as [hs Hhs].
        exists (h :: hs). rewrite Hhs, <- app_assoc. reflexivity.
      + exists [h]. reflexivity. }
  rewrite process_request_unfold.
  destruct (RestClient._get_response E self request w) as [[[resp|e] tr] w1];
    cbn [fst snd].
  - destruct (Z.eqb (Response.status_code resp / 100) 2).
    + destruct (RestClient.loads E (Response.text resp)) as [body|e].
      * destruct (Request.callback (RestClient.heap w1 request)) as [f|].
        -- apply Hguarded.
        -- apply Hhandled.
      * apply Hraised.
    + apply Hguarded.
  - apply Hraised.
Qed.

(** X7. One run of [_process_request] makes at most one network call and
    never repeats it, whatever the hooks do: none when [sign] raises, and
    otherwise exactly the call built from the signed request and the
    client's base URL and proxy. The call comes before every hook call. *)
Theorem one_network_call (request : Ref) (w : RestClient.World) :
  let tr := snd (fst (RestClient._process_request E self request w)) in
  (length (network_calls tr) <= 1)%nat /\
  (forall e w1,
     RestClient.Self.sign self request w = (Raise e, w1) ->
     network_calls tr = []) /\
  (forall signed w1,
     RestClient.Self.sign self request w = (Ok signed, w1) ->
     network_calls tr
     = [call_of (RestClient.client w1) (RestClient.heap w1 signed)]) /\
  (exists net hooks,
     tr = net ++ map RestClient.HookCall hooks /\
     hook_calls net = [] /\
     network_calls tr = network_calls net).
Proof.
  cbv zeta.
  destruct (process_request_trace request w) as [hs Htr].
  assert (Hnet :
    network_calls (snd (fst (RestClient._process_request E self request w)))
    = network_calls (snd (fst (RestClient._get_response E self request w)))).
  { rewrite Htr, network_calls_app, network_calls_hooks, app_nil_r. reflexivity. }
  assert (Hraise : forall e w1,
    RestClient.Self.sign self request w = (Raise e, w1) ->
    network_calls (snd (fst (RestClient._get_response E self request w))) = []).
  { intros e w1 Hsign. rewrite get_response_unfold, Hsign. reflexivity. }
  assert (Hok : forall signed w1,
    RestClient.Self.sign self request w = (Ok signed, w1) ->
    network_calls (snd (fst (RestClient._get_response E self request w)))
    = [call_of (RestClient.client w1) (RestClient.heap w1 signed)]).
  { intros signed w1 Hsign. rewrite get_response_unfold, Hsign. unfold dispatch.
    destruct (RestClient.session_request E _) as [cr|e]; [| reflexivity].
    destruct (ClientResponse.text cr); reflexivity. }
  split; [| split; [| split]].
  - rewrite Hnet.
    destruct (RestClient.Self.sign self request w) as [[signed|e] w1] eqn:Hsign.
    + rewrite (Hok _ _ eq_refl). cbn. lia.
    + rewrite (Hraise _ _ eq_refl). cbn. lia.
  - intros e w1 Hsign. rewrite Hnet. eapply Hraise; exact Hsign.
  - intros signed w1 Hsign. rewrite Hnet. apply Hok; exact Hsign.
  - exists (snd (fst (RestClient._get_response E self request w))), hs.
    split; [exact Htr |].
    split; [apply get_response_no_hooks | exact Hnet].
Qed.

(** X8. What [_get_response] does to the state after [sign] has returned:
    the session is created only when the client has none and is kept
    otherwise; base URL, proxy and loop are not touched. When the call and
    the reading of the body succeed, the signed request gets the response
    that is returned, keeps all its other fields, and no other object
    changes; when one of them raises, no object changes. *)
Theorem get_response_effect (request signed : Ref) (w w1 : RestClient.World) :
  RestClient.Self.sign self request w = (Ok signed, w1) ->
  let out := RestClient._get_response E self request w in
  let w' := snd out in
  RestClient.session (RestClient.client w')
  = Some match RestClient.session (RestClient.client w1) with
         | Some s => s
         | None => {| ClientSession.trust_env := true |}
         end /\
  RestClient.url_base (RestClient.client w') = RestClient.url_base (RestClient.client w1) /\
  RestClient.proxy (RestClient.client w') = RestClient.proxy (RestClient.client w1) /\
  RestClient.loop (RestClient.client w') = RestClient.loop (RestClient.client w1) /\
  (forall resp,
     fst (fst out) = Ok resp ->
     RestClient.heap w' signed
     = Request.set_response (Some resp) (RestClient.heap w1 signed) /\
     forall r, r <> signed -> RestClient.heap w' r = RestClient.heap w1 r) /\
  (forall e,
     fst (fst out) = Raise e ->
     RestClient.heap w' = RestClient.heap w1).
Proof.
  intros Hsign. cbv zeta. rewrite get_response_unfold, Hsign.
  assert (Hc : forall w0,
    RestClient.session (RestClient.client (RestClient.ensure_session w0))
    = Some match RestClient.session (RestClient.client w0) with
           | Some s => s
           | None => {| ClientSession.trust_env := true |}
           end /\
    RestClient.loop (RestClient.client (RestClient.ensure_session w0))
    = RestClient.loop (RestClient.client w0)).
  { intros w0. unfold RestClient.ensure_session.
    destruct (RestClient.session (RestClient.client w0)) eqn:Hs;
      [rewrite Hs |]; split; reflexivity. }
  destruct (Hc w1) as [Hsess Hloop].
  unfold dispatch.
  destruct (RestClient.session_request E _) as [cr|e].
  - destruct (ClientResponse.text cr) as [text|e]; cbn [fst snd].
    + unfold RestClient.attach_response.
      cbn [RestClient.set_heap RestClient.client RestClient.heap].
      rewrite ensure_session_heap, ensure_session_url_base, ensure_session_proxy.
      split; [exact Hsess |]. split; [reflexivity |]. split; [reflexivity |].
      split; [exact Hloop |]. split.
      * intros resp Hresp. injection Hresp as <-. split.
        -- rewrite fn_lookup_insert. reflexivity.
        -- intros r Hne. rewrite fn_lookup_insert_ne by congruence. reflexivity.
      * intros e Habs. discriminate Habs.
    + rewrite ensure_session_heap, ensure_session_url_base, ensure_session_proxy.
      split; [exact Hsess |]. split; [reflexivity |]. split; [reflexivity |].
      split; [exact Hloop |]. split.
      * intros resp Habs. discriminate Habs.
      * intros e0 _. reflexivity.
  - cbn [fst snd].
    rewrite ensure_session_heap, ensure_session_url_base, ensure_session_proxy.
    split; [exact Hsess |]. split; [reflexivity |]. split; [reflexivity |].
    split; [exact Hloop |]. split.
    + intros resp Habs. discriminate Habs.
    + intros e0 _. reflexivity.
Qed.

End NetworkCalls.

(** X8 at work: the first request of the scenario creates the session and
    attaches the 404 response. *)
Lemma get_response_effect_witness :
  let w := Scenario.submitted "/missing" (Some Scenario.quiet) None None in
  let out :=
    RestClient._get_response Scenario.env (RestClient.base Scenario.env) 0%nat w in
  RestClient.session (RestClient.client w) = None /\
  RestClient.session (RestClient.client (snd out))
  = Some {| ClientSession.trust_env := true |}.
Proof.
  cbv zeta. split; [reflexivity |].
  apply (get_response_effect Scenario.env (RestClient.base Scenario.env) 0%nat 0%nat
           (Scenario.submitted "/missing" (Some Scenario.quiet) None None)
           (Scenario.submitted "/missing" (Some Scenario.quiet) None None)).
  reflexivity.
Defined.

(** ** What the default handlers print *)

Lemma ensure_session_stdout (w : RestClient.World) :
  RestClient.stdout (RestClient.ensure_session w) = RestClient.stdout w /\
  RestClient.stderr (RestClient.ensure_session w) = RestClient.stderr w.
Proof.
  unfold RestClient.ensure_session.
  destruct (RestClient.session (RestClient.client w)); split; reflexivity.
Qed.

Section Diagnostics.

Variable E : RestClient.Env.

(** X9. The class of the source, a request without [on_failed] of its
    own, and an answer with a status outside 200..299: [_process_request]
    returns, calls the client's [on_failed] and nothing else, and prints
    two lines, the banner and the rendering of the request. The response
    is attached before the hook runs, so the rendering shows the status
    code of the answer. Nothing goes to the error stream. *)
Theorem default_failure_diagnostics (request : Ref) (w : RestClient.World)
    (cr : ClientResponse.t) (text : string) :
  RestClient.session_request E
    (call_of (RestClient.client w) (RestClient.heap w request)) = Ok cr ->
  ClientResponse.text cr = Ok text ->
  ~ (200 <= ClientResponse.status cr <= 299) ->
  Request.on_failed (RestClient.heap w request) = None ->
  let resp := Response.__init__ (ClientResponse.status cr) text in
  let answered := Request.set_response (Some resp) (RestClient.heap w request) in
  let out := RestClient._process_request E (RestClient.base E) request w in
  fst (fst out) = Ok tt /\
  hook_calls (snd (fst out))
  = [RestClient.ClientOnFailed (ClientResponse.status cr) request] /\
  RestClient.stdout (snd out)
  = RestClient.stdout w
      ++ ["RestClient on failed" +:+ "----------";
          Request.__str__ (RestClient.py_format E) answered] /\
  Request.status_field answered = pretty (ClientResponse.status cr) /\
  RestClient.stderr (snd out) = RestClient.stderr w /\
  RestClient.heap (snd out) request = answered.
Proof.
  intros Hcall Htext Hs Hnone. cbv zeta.
  rewrite process_request_unfold, get_response_unfold.
  cbn [RestClient.base RestClient.Self.sign RestClient.sign].
  unfold dispatch. rewrite Hcall, Htext.
  cbn [Response.status_code].
  destruct (Z.eqb (ClientResponse.status cr / 100) 2) eqn:Hb.
  { apply status_2xx in Hb. contradiction. }
  unfold failure_path, RestClient.attach_response.
  cbn [RestClient.set_heap RestClient.heap].
  rewrite fn_lookup_insert, ensure_session_heap.
  cbn [Request.set_response Request.on_failed]. rewrite Hnone.
  unfold guarded, RestClient.run_hook.
  cbn [RestClient.base RestClient.Self.on_failed].
  unfold RestClient.on_failed, RestClient.print.
  cbn [fst snd RestClient.set_heap RestClient.heap RestClient.stdout
       RestClient.stderr].
  rewrite !fn_lookup_insert.
  destruct (ensure_session_stdout w) as [-> ->].
  split; [reflexivity |].
  split; [rewrite hook_calls_app; reflexivity |].
  split; [rewrite <- app_assoc; reflexivity |].
  repeat split.
Qed.

(** X10. The class of the source, a request without [on_error] of its
    own, and a network call that raises: [_process_request] returns, calls
    the client's [on_error] and nothing else, attaches no response and
    changes no object, and prints two lines, the banner and the text of
    [exception_detail], which names the type of the exception and renders
    the request as it is, with [terminated] for its status when it never
    had a response. *)
Theorem default_error_diagnostics (request : Ref) (w : RestClient.World)
    (e : Exn) :
  RestClient.session_request E
    (call_of (RestClient.client w) (RestClient.heap w request)) = Raise e ->
  Request.on_error (RestClient.heap w request) = None ->
  let out := RestClient._process_request E (RestClient.base E) request w in
  let detail :=
    "[" +:+ RestClient.now_isoformat E +:+ "]: Unhandled RestClient Error:"
        +:+ "<class '" +:+ exc_type e +:+ "'>" +:+ LF
        +:+ "request:"
        +:+ Request.__str__ (RestClient.py_format E) (RestClient.heap w request)
        +:+ LF +:+ "Exception trace: " +:+ LF
        +:+ RestClient.format_exception E e in
  fst (fst out) = Ok tt /\
  hook_calls (snd (fst out)) = [RestClient.ClientOnError e request] /\
  RestClient.heap (snd out) = RestClient.heap w /\
  RestClient.stdout (snd out)
  = RestClient.stdout w ++ ["RestClient on error" +:+ "----------"; detail] /\
  RestClient.stderr (snd out) = RestClient.stderr w /\
  (Request.response (RestClient.heap w request) = None ->
   Request.status_field (RestClient.heap (snd out) request) = "terminated").
Proof.
  intros Hcall Hnone. cbv zeta.
  rewrite process_request_unfold, get_response_unfold.
  cbn [RestClient.base RestClient.Self.sign RestClient.sign].
  unfold dispatch. rewrite Hcall.
  unfold raised_in_try.
  rewrite (RestClient.session_request_raises_Exception E _ _ Hcall).
  unfold handled, error_path. rewrite ensure_session_heap, Hnone.
  unfold RestClient.run_hook.
  cbn [RestClient.base RestClient.Self.on_error].
  unfold RestClient.on_error, RestClient.exception_detail, RestClient.print.
  cbn [fst snd RestClient.heap RestClient.stdout RestClient.stderr].
  rewrite ensure_session_heap.
  destruct (ensure_session_stdout w) as [-> ->].
  split; [reflexivity |].
  split; [reflexivity |].
  split; [reflexivity |].
  split.
  { rewrite <- app_assoc. cbn [app]. do 3 f_equal.
    rewrite !append_assoc. reflexivity. }
  split; [reflexivity |].
  intros Hresp. unfold Request.status_field. rewrite Hresp. reflexivity.
Qed.

End Diagnostics.

(** X9 at work: [/missing] answers 404; the second line printed names
    the status. *)
Lemma default_failure_diagnostics_witness :
  let w := Scenario.submitted "/missing" (Some Scenario.quiet) None None in
  let out :=
    RestClient._process_request Scenario.env (RestClient.base Scenario.env) 0%nat w in
  RestClient.stdout (snd out)
  = ["RestClient on failed----------";
     "request : GET /missing because 404: " +:+ LF +:+ "headers: None" +:+ LF
       +:+ "params: None" +:+ LF +:+ "data: None" +:+ LF
       +:+ "response:not found" +:+ LF].
Proof.
  cbv zeta.
  destruct (default_failure_diagnostics Scenario.env 0%nat
              (Scenario.submitted "/missing" (Some Scenario.quiet) None None)
              {| ClientResponse.status := 404; ClientResponse.text := Ok "not found" |}
              "not found"
              ltac:(vm_compute; reflexivity) ltac:(reflexivity)
              ltac:(cbn; lia) ltac:(vm_compute; reflexivity))
    as (_ & _ & Hout & _).
  rewrite Hout. vm_compute. reflexivity.
Defined.

(** X10 at work: a refused connection; the request is rendered with
    [terminated]. *)
Lemma default_error_diagnostics_witness :
  let w := Scenario.submitted "/down" (Some Scenario.quiet) None None in
  let out :=
    RestClient._process_request Scenario.env (RestClient.base Scenario.env) 0%nat w in
  fst (fst out) = Ok tt /\
  Request.status_field (RestClient.heap (snd out) 0%nat) = "terminated".
Proof.
  cbv zeta.
  destruct (default_error_diagnostics Scenario.env 0%nat
              (Scenario.submitted "/down" (Some Scenario.quiet) None None)
              (mkExn "ClientConnectorError" "Cannot connect to host" [])
              ltac:(vm_compute; reflexivity) ltac:(vm_compute; reflexivity))
    as (Hok & _ & _ & _ & _ & Hterm).
  split; [exact Hok | apply Hterm; reflexivity].
Defined.

(** ** A request without callback *)

Section MissingCallback.

Variable E : RestClient.Env.
Variable self : RestClient.Self.vtable.

(** X11. A request whose [callback] is [None] and whose answer has a
    status in 200..299 ends on the error path and on no other: with the
    [TypeError] of calling [None] when the body decodes, and with the
    decoding error when it does not, since the body is decoded before the
    call is attempted. *)
Theorem missing_callback_routes_to_error (request : Ref) (w w1 : RestClient.World)
    (resp : Response.t) (tr1 : list RestClient.Event) :
  RestClient._get_response E self request w = (Ok resp, tr1, w1) ->
  200 <= Response.status_code resp <= 299 ->
  Request.callback (RestClient.heap w1 request) = None ->
  let tr := snd (fst (RestClient._process_request E self request w)) in
  let raised :=
    match Response.json (RestClient.loads E) resp with
    | Ok _ => TypeError "'NoneType' object is not callable"
    | Raise e => e
    end in
  hook_calls tr = [error_path (RestClient.heap w1 request) raised request] /\
  count is_success tr = 0%nat /\
  count is_failure tr = 0%nat /\
  count is_error tr = 1%nat.
Proof.
  intros Hget Hs Hcb. cbv zeta.
  pose proof (get_response_no_hooks E self request w) as Hquiet.
  rewrite (process_request_unfold E self request w).
  rewrite Hget in *. cbn [fst snd] in Hquiet.
  apply status_2xx in Hs. rewrite Hs. unfold Response.json.
  assert (Hone : forall e,
    let tr := snd (fst (handled E self request e tr1 w1)) in
    hook_calls tr = [error_path (RestClient.heap w1 request) e request] /\
    count is_success tr = 0%nat /\
    count is_failure tr = 0%nat /\
    count is_error tr = 1%nat).
  { intros e. cbv zeta. unfold handled.
    destruct (RestClient.run_hook E self _ w1) as [r w2]. cbn [fst snd].
    pose proof (hook_calls_snoc tr1
                  (error_path (RestClient.heap w1 request) e request) Hquiet) as Hh.
    destruct (error_path_is_error (RestClient.heap w1 request) e request)
      as (He & Hsu & Hf).
    rewrite !(count_single _ _ _ Hh), He, Hsu, Hf. repeat split. exact Hh. }
  destruct (RestClient.loads E (Response.text resp)) as [body|e] eqn:Hloads.
  - rewrite Hcb. apply Hone.
  - unfold raised_in_try.
    rewrite (RestClient.loads_raises_Exception E _ _ Hloads). apply Hone.
Qed.

End MissingCallback.

(** X11 at work: [/ping] answers 200 and the request has no callback. *)
Lemma missing_callback_routes_to_error_witness :
  let w := Scenario.submitted "/ping" None None None in
  hook_calls
    (snd (fst (RestClient._process_request Scenario.env
                 (RestClient.base Scenario.env) 0%nat w)))
  = [RestClient.ClientOnError
       (TypeError "'NoneType' object is not callable") 0%nat].
Proof.
  cbv zeta.
  set (w := Scenario.submitted "/ping" None None None).
  set (self := RestClient.base Scenario.env).
  destruct (missing_callback_routes_to_error Scenario.env self 0%nat w
              (snd (RestClient._get_response Scenario.env self 0%nat w))
              (Response.__init__ 200 "[1, 2]")
              (snd (fst (RestClient._get_response Scenario.env self 0%nat w)))
              ltac:(vm_compute; reflexivity) ltac:(cbn; lia)
              ltac:(vm_compute; reflexivity))
    as (Hcalls & _).
  rewrite Hcalls. vm_compute. reflexivity.
Defined.

(** ** Initialising again *)

(** X12. [init] can be repeated. The last base URL wins; session and loop
    are never touched; a proxy that is set is never unset, and a call
    without host or with port 0 leaves the proxy of the earlier call in
    place; repeating a call with the same arguments changes nothing. *)
Theorem init_again (b1 h1 b2 h2 : string) (p1 p2 : Z) (c : RestClient.t) :
  let c1 := RestClient.init b1 h1 p1 c in
  let c2 := RestClient.init b2 h2 p2 c1 in
  RestClient.url_base c2 = b2 /\
  RestClient.session c2 = RestClient.session c /\
  RestClient.loop c2 = RestClient.loop c /\
  (RestClient.proxy c1 <> None -> RestClient.proxy c2 <> None) /\
  (h2 = EmptyString \/ p2 = 0 -> RestClient.proxy c2 = RestClient.proxy c1) /\
  RestClient.init b1 h1 p1 c1 = c1.
Proof.
  cbv zeta. unfold RestClient.init.
  cbn [RestClient.url_base RestClient.proxy RestClient.session RestClient.loop].
  pose proof (proxy_guard h2 p2) as G2.
  split; [reflexivity |]. split; [reflexivity |]. split; [reflexivity |].
  split; [| split].
  - intros Hset.
    destruct (negb (String.eqb h2 EmptyString) && negb (Z.eqb p2 0));
      [discriminate | exact Hset].
  - intros Hoff.
    destruct (negb (String.eqb h2 EmptyString) && negb (Z.eqb p2 0)) eqn:B;
      [| reflexivity].
    destruct G2 as [G2 _]. destruct (G2 eq_refl) as [Hh Hp].
    destruct Hoff as [Hoff | Hoff]; contradiction.
  - destruct (negb (String.eqb h1 EmptyString) && negb (Z.eqb p1 0));
      reflexivity.
Qed.

(** ** Several submissions *)

Lemma take_scheduled_middle (l : Asyncio.Loop) (coro : Asyncio.Coroutine)
    (s t : list (Asyncio.Loop * Asyncio.Coroutine)) :
  Asyncio.take_scheduled l s = None ->
  Asyncio.take_scheduled l (s ++ (l, coro) :: t) = Some (coro, s ++ t).
Proof.
  induction s as [|[l' c'] s IH]; intros H.
  - cbn. rewrite Nat.eqb_refl. reflexivity.
  - change (((l', c') :: s) ++ (l, coro) :: t)
      with ((l', c') :: (s ++ (l, coro) :: t)).
    cbn [Asyncio.take_scheduled] in *.
    destruct (Nat.eqb l' l); [discriminate H |].
    destruct (Asyncio.take_scheduled l s) as [[c rest]|]; [discriminate H |].
    rewrite IH by reflexivity. reflexivity.
Qed.

Section Submissions.

Variable E : RestClient.Env.
Variable self : RestClient.Self.vtable.

(** X13. Two calls of [add_request] on a started client give two
    different [Request] objects, each with the fields it was submitted
    with and no response; the second call does not alter the first
    object. Nothing is sent at submission. The worker of the loop takes
    the coroutine of the first request first and leaves the second one
    queued. *)
Theorem submissions_are_distinct_and_ordered
    (m1 p1 : string) (cb1 : option Callable) (q1 d1 h1 : PyObj)
    (f1 e1 : option Callable) (x1 : PyObj)
    (m2 p2 : string) (cb2 : option Callable) (q2 d2 h2 : PyObj)
    (f2 e2 : option Callable) (x2 : PyObj)
    (w : RestClient.World) (l : Asyncio.Loop) :
  RestClient.loop (RestClient.client w) = Some l ->
  Asyncio.is_running (RestClient.asyncio w) l = true ->
  Asyncio.take_scheduled l (Asyncio.scheduled (RestClient.asyncio w)) = None ->
  let first := RestClient.add_request m1 p1 cb1 q1 d1 h1 f1 e1 x1 w in
  let second := RestClient.add_request m2 p2 cb2 q2 d2 h2 f2 e2 x2 (snd first) in
  let r1 := RestClient.next_ref w in
  let r2 := S (RestClient.next_ref w) in
  fst first = Ok r1 /\
  fst second = Ok r2 /\
  r1 <> r2 /\
  RestClient.heap (snd second) r1 = Request.__init__ m1 p1 q1 d1 h1 cb1 f1 e1 x1 /\
  RestClient.heap (snd second) r2 = Request.__init__ m2 p2 q2 d2 h2 cb2 f2 e2 x2 /\
  Request.response (RestClient.heap (snd second) r1) = None /\
  Asyncio.scheduled (RestClient.asyncio (snd second))
  = Asyncio.scheduled (RestClient.asyncio w)
      ++ [(l, Asyncio.ProcessRequest r1); (l, Asyncio.ProcessRequest r2)] /\
  exists w0,
    RestClient.worker_step E self l (snd second)
    = RestClient._process_request E self r1 w0 /\
    RestClient.heap w0 = RestClient.heap (snd second) /\
    Asyncio.scheduled (RestClient.asyncio w0)
    = Asyncio.scheduled (RestClient.asyncio w) ++ [(l, Asyncio.ProcessRequest r2)].
Proof.
  intros Hloop Hrun Hfree. cbv zeta.
  unfold RestClient.add_request, RestClient.new_request,
    RestClient.run_coroutine_threadsafe.
  cbn [RestClient.client]. rewrite Hloop.
  cbn [fst snd RestClient.set_asyncio RestClient.client RestClient.asyncio
       RestClient.heap RestClient.next_ref Asyncio.set_scheduled
       Asyncio.scheduled].
  rewrite Hloop.
  cbn [fst snd RestClient.set_asyncio RestClient.client RestClient.asyncio
       RestClient.heap RestClient.next_ref Asyncio.set_scheduled
       Asyncio.scheduled].
  rewrite fn_lookup_insert.
  rewrite fn_lookup_insert_ne by lia. rewrite fn_lookup_insert.
  split; [reflexivity |]. split; [reflexivity |]. split; [lia |].
  split; [reflexivity |]. split; [reflexivity |]. split; [reflexivity |].
  split; [rewrite <- app_assoc; reflexivity |].
  eexists. unfold RestClient.worker_step, Asyncio.is_running in *.
  cbn [RestClient.asyncio RestClient.set_asyncio Asyncio.loops
       Asyncio.scheduled Asyncio.set_scheduled].
  rewrite Hrun. rewrite <- app_assoc.
  change ([(l, Asyncio.ProcessRequest (RestClient.next_ref w))]
          ++ [(l, Asyncio.ProcessRequest (S (RestClient.next_ref w)))])
    with ((l, Asyncio.ProcessRequest (RestClient.next_ref w))
          :: [(l, Asyncio.ProcessRequest (S (RestClient.next_ref w)))]).
  rewrite (take_scheduled_middle _ _ _ _ Hfree).
  split; [reflexivity |]. split; reflexivity.
Qed.

End Submissions.

(** X13 at work: two submissions to the started client of the scenario. *)
Lemma submissions_are_distinct_and_ordered_witness :
  let first :=
    RestClient.add_request "GET" "/ping" (Some Scenario.quiet) PyNone PyNone PyNone
      None None PyNone Scenario.started in
  let second :=
    RestClient.add_request "GET" "/missing" (Some Scenario.quiet) PyNone PyNone
      PyNone None None PyNone (snd first) in
  fst first = Ok 0%nat /\ fst second = Ok 1%nat.
Proof.
  cbv zeta.
  destruct (submissions_are_distinct_and_ordered Scenario.env
              (RestClient.base Scenario.env)
              "GET" "/ping" (Some Scenario.quiet) PyNone PyNone PyNone None None PyNone
              "GET" "/missing" (Some Scenario.quiet) PyNone PyNone PyNone None None
              PyNone Scenario.started 0%nat
              ltac:(reflexivity) ltac:(reflexivity) ltac:(reflexivity))
    as (H1 & H2 & _).
  split; [exact H1 | exact H2].
Defined.

(** ** What goes on the wire, and what the hooks see *)

Section Wire.

Variable E : RestClient.Env.

Lemma worker_runs_submitted (self : RestClient.Self.vtable)
    (method path : string) (callback : option Callable)
    (params data headers : PyObj) (on_failed on_error : option Callable)
    (extra : PyObj) (w : RestClient.World) (l : Asyncio.Loop) :
  RestClient.loop (RestClient.client w) = Some l ->
  Asyncio.is_running (RestClient.asyncio w) l = true ->
  Asyncio.take_scheduled l (Asyncio.scheduled (RestClient.asyncio w)) = None ->
  let queued :=
    snd (RestClient.add_request method path callback params data headers
           on_failed on_error extra w) in
  exists w0,
    RestClient.worker_step E self l queued
    = RestClient._process_request E self (RestClient.next_ref w) w0 /\
    RestClient.client w0 = RestClient.client w /\
    RestClient.heap w0 (RestClient.next_ref w)
    = Request.__init__ method path params data headers
        callback on_failed on_error extra.
Proof.
  intros Hloop Hrun Hfree. cbv zeta.
  unfold RestClient.add_request, RestClient.new_request,
    RestClient.run_coroutine_threadsafe.
  cbn [RestClient.client]. rewrite Hloop.
  cbn [fst snd].
  eexists. unfold RestClient.worker_step, Asyncio.is_running in *.
  cbn [RestClient.asyncio RestClient.set_asyncio Asyncio.loops
       Asyncio.scheduled Asyncio.set_scheduled].
  rewrite Hrun, (take_scheduled_snoc _ _ _ Hfree).
  split; [reflexivity |].
  cbn [RestClient.set_asyncio RestClient.client RestClient.heap].
  rewrite fn_lookup_insert. split; reflexivity.
Qed.

(** X14. With the [sign] of the source, what [add_request] was given is
    what the worker sends: one call, with the submitted method, headers,
    params and data, the base URL followed by the submitted path, and the
    client's proxy. Callbacks, hooks and [extra] are not part of it. *)
Theorem submitted_request_goes_on_the_wire
    (method path : string) (callback : option Callable)
    (params data headers : PyObj) (on_failed on_error : option Callable)
    (extra : PyObj) (w : RestClient.World) (l : Asyncio.Loop) :
  RestClient.loop (RestClient.client w) = Some l ->
  Asyncio.is_running (RestClient.asyncio w) l = true ->
  Asyncio.take_scheduled l (Asyncio.scheduled (RestClient.asyncio w)) = None ->
  let queued :=
    snd (RestClient.add_request method path callback params data headers
           on_failed on_error extra w) in
  network_calls
    (snd (fst (RestClient.worker_step E (RestClient.base E) l queued)))
  = [{| ClientSession.method := method;
        ClientSession.url := RestClient.url_base (RestClient.client w) +:+ path;
        ClientSession.headers := headers;
        ClientSession.params := params;
        ClientSession.data := data;
        ClientSession.proxy := RestClient.proxy (RestClient.client w) |}].
Proof.
  intros Hloop Hrun Hfree. cbv zeta.
  destruct (worker_runs_submitted (RestClient.base E) method path callback
              params data headers on_failed on_error extra w l Hloop Hrun Hfree)
    as (w0 & Hstep & Hclient & Hobj).
  rewrite Hstep.
  destruct (process_request_trace E (RestClient.base E) (RestClient.next_ref w) w0)
    as [hs Htr].
  rewrite Htr, network_calls_app, network_calls_hooks, app_nil_r.
  rewrite get_response_unfold.
  cbn [RestClient.base RestClient.Self.sign RestClient.sign].
  assert (Hcall :
    network_calls (snd (fst (dispatch E (RestClient.next_ref w) w0)))
    = [call_of (RestClient.client w0) (RestClient.heap w0 (RestClient.next_ref w))]).
  { unfold dispatch.
    destruct (RestClient.session_request E _) as [cr|e]; [| reflexivity].
    destruct (ClientResponse.text cr); reflexivity. }
  rewrite Hcall, Hclient, Hobj. reflexivity.
Qed.

Variable self : RestClient.Self.vtable.

(** X15. The response is attached to the request that [sign] returned,
    and the hooks receive the request that was submitted. When [sign]
    returns the submitted object, the failure hook runs in a state where
    that object carries the response. When [sign] returns another object,
    the response is on that other object only: the submitted request, the
    one handed to the hooks, is left as [sign] left it. *)
Theorem response_goes_to_signed_request (request signed : Ref)
    (w w1 : RestClient.World) (cr : ClientResponse.t) (text : string) :
  RestClient.Self.sign self request w = (Ok signed, w1) ->
  RestClient.session_request E
    (call_of (RestClient.client w1) (RestClient.heap w1 signed)) = Ok cr ->
  ClientResponse.text cr = Ok text ->
  ~ (200 <= ClientResponse.status cr <= 299) ->
  let resp := Response.__init__ (ClientResponse.status cr) text in
  let call := call_of (RestClient.client w1) (RestClient.heap w1 signed) in
  let w2 := RestClient.attach_response signed resp (RestClient.ensure_session w1) in
  RestClient._process_request E self request w
  = guarded E self request
      (failure_path (RestClient.heap w2 request) (ClientResponse.status cr) request)
      [RestClient.NetworkCall call] w2 /\
  Request.response (RestClient.heap w2 signed) = Some resp /\
  (signed = request -> Request.response (RestClient.heap w2 request) = Some resp) /\
  (signed <> request -> RestClient.heap w2 request = RestClient.heap w1 request).
Proof.
  intros Hsign Hcall Htext Hs. cbv zeta.
  rewrite process_request_unfold, get_response_unfold, Hsign.
  unfold dispatch. rewrite Hcall, Htext. cbn [Response.status_code].
  destruct (Z.eqb (ClientResponse.status cr / 100) 2) eqn:Hb.
  { apply status_2xx in Hb. contradiction. }
  split; [reflexivity |].
  split; [apply attach_response_lookup |].
  split.
  - intros <-. apply attach_response_lookup.
  - intros Hne. unfold RestClient.attach_response.
    cbn [RestClient.set_heap RestClient.heap].
    rewrite fn_lookup_insert_ne by exact Hne.
    rewrite ensure_session_heap. reflexivity.
Qed.

End Wire.

(** X14 at work: the submission of the scenario to [/ping]. *)
Lemma submitted_request_goes_on_the_wire_witness :
  network_calls
    (snd (fst (RestClient.worker_step Scenario.env (RestClient.base Scenario.env)
                 0%nat
                 (Scenario.submitted "/ping" (Some Scenario.quiet) None None))))
  = [{| ClientSession.method := "GET";
        ClientSession.url := "https://api.example.com" +:+ "/ping";
        ClientSession.headers := PyNone;
        ClientSession.params := PyNone;
        ClientSession.data := PyNone;
        ClientSession.proxy := None |}].
Proof.
  apply (submitted_request_goes_on_the_wire Scenario.env
           "GET" "/ping" (Some Scenario.quiet) PyNone PyNone PyNone None None PyNone
           Scenario.started 0%nat);
    reflexivity.
Defined.

(** X15 at work: [/missing] with a [sign] that returns a copy. The copy,
    object 1, carries the 404 response; the submitted request, object 0,
    carries none, and the client's [on_failed] renders it with
    [terminated]. *)
Lemma response_goes_to_signed_request_witness :
  let w := Scenario.submitted "/missing" (Some Scenario.quiet) None None in
  let out := RestClient._process_request Scenario.env Resigning.class 0%nat w in
  Request.response (RestClient.heap (snd out) 1%nat)
  = Some (Response.__init__ 404 "not found") /\
  Request.response (RestClient.heap (snd out) 0%nat) = None /\
  RestClient.stdout (snd out)
  = ["RestClient on failed----------";
     "request : GET /missing because terminated: " +:+ LF +:+ "headers: None" +:+ LF
       +:+ "params: None" +:+ LF +:+ "data: None" +:+ LF
       +:+ "response:" +:+ LF].
Proof.
  cbv zeta.
  destruct (response_goes_to_signed_request Scenario.env Resigning.class
              0%nat 1%nat
              (Scenario.submitted "/missing" (Some Scenario.quiet) None None)
              (snd (Resigning.sign 0%nat
                      (Scenario.submitted "/missing" (Some Scenario.quiet) None None)))
              {| ClientResponse.status := 404; ClientResponse.text := Ok "not found" |}
              "not found"
              ltac:(reflexivity) ltac:(vm_compute; reflexivity)
              ltac:(reflexivity) ltac:(cbn; lia))
    as (Hrun & _).
  rewrite Hrun. repeat split; vm_compute; reflexivity.
Defined.
